(** * OpenSSA [Agent]: strategy dispatch and depth-bounded dynamic solving

    A shallow embedding of [openssa/l2/agent/agent.py].  The agent's
    collaborators (Reasoner, Planner, Plan execution) are language-model driven
    and live outside the file; they enter as interfaces (type classes) whose
    methods act on an abstract [World].  Python's in-place mutation is written
    as explicit state passing: the state holds the world of the collaborators
    and the store of the Python [list] objects that [solve_dynamically]
    allocates and shares with its recursive calls.

    The second part embeds the SSM adapter of
    [openssm/core/adapter/base_adapter.py] in the same way: the backends are
    an interface, and the Python list of backends is an object in a store. *)

From stdpp Require Import gmap strings list.

Set Warnings "-register-all".

(** ** Python preliminaries *)

(** The exceptions the agent can end with.  An exception that escapes a
    collaborator is never caught by the agent; it is tagged [UpstreamError]
    so that it cannot be confused with one the agent raises itself. *)
Inductive exn :=
| NotImplementedError
| ValueError
| TypeError
| AttributeError
| UnboundLocalError
| UpstreamError (msg : string).

(** Truth value of a Python [int]: only [0] is falsy. *)
Definition int_truth (n : Z) : bool := negb (n =? 0)%Z.

(** The runtime values [add_knowledge] may be handed. *)
Inductive pyclass := cls_str | cls_set | cls_int | cls_list | cls_NoneType.

Inductive pyvalue :=
| PyStr (s : string)
| PySet (xs : gset string)
| PyInt (n : Z)
| PyList (xs : list string)
| PyNone.

Definition type_of (v : pyvalue) : pyclass :=
  match v with
  | PyStr _ => cls_str
  | PySet _ => cls_set
  | PyInt _ => cls_int
  | PyList _ => cls_list
  | PyNone => cls_NoneType
  end.

Definition pyclass_eqb (a b : pyclass) : bool :=
  match a, b with
  | cls_str, cls_str | cls_set, cls_set | cls_int, cls_int
  | cls_list, cls_list | cls_NoneType, cls_NoneType => true
  | _, _ => false
  end.

(** The second argument of [isinstance]: a class, or a parameterized generic
    such as [set[str]] (a [types.GenericAlias]). *)
Inductive classinfo :=
| Class_ (c : pyclass)
| GenericAlias (origin : pyclass) (args : list pyclass).

(** [isinstance(v, ci)].  CPython refuses a parameterized generic:
    "TypeError: isinstance() argument 2 cannot be a parameterized generic". *)
Definition isinstance (v : pyvalue) (ci : classinfo) : exn + bool :=
  match ci with
  | Class_ c => inr (pyclass_eqb (type_of v) c)
  | GenericAlias _ _ => inl TypeError
  end.

Definition str_of (v : pyvalue) : string :=
  match v with PyStr s => s | _ => "" end.

Definition set_of (v : pyvalue) : gset string :=
  match v with PySet xs => xs | _ => ∅ end.

(** ** Data model *)

(** Modelled from the spec: the enumeration [TaskStatus] ([openssa.l2.task.status]
    is not among the sources); section 3 lists its four members. *)
Inductive TaskStatus := CREATED | RESOLVED | NEEDING_DECOMPOSITION | DONE.

Definition TaskStatus_eqb (a b : TaskStatus) : bool :=
  match a, b with
  | CREATED, CREATED | RESOLVED, RESOLVED
  | NEEDING_DECOMPOSITION, NEEDING_DECOMPOSITION | DONE, DONE => true
  | _, _ => false
  end.

(** Modelled from the spec: an informational [Resource] is opaque and hashable
    and exposes a unique name and a short overview (section 6). *)
Record Resource := { unique_name : string; overview : string }.

#[global] Instance Resource_eq_dec : EqDecision Resource.
Proof. solve_decision. Defined.

#[global] Instance Resource_countable : Countable Resource :=
  inj_countable' (λ r, (unique_name r, overview r))
                 (λ p, {| unique_name := p.1; overview := p.2 |})
                 (λ r, match r with Build_Resource _ _ => eq_refl end).

(** Modelled from the spec: [Task] ([openssa.l2.task.task] is not among the
    sources): a question, the resources to answer it with, a status that starts
    as [CREATED], and a result that is absent until somebody sets it. *)
Module Task.
Record t := mk {
  ask : string;
  resources : gset Resource;
  status : TaskStatus;
  result : option string
}.

(** [Task(ask=..., resources=...)] *)
Definition new (ask : string) (resources : gset Resource) : t :=
  mk ask resources CREATED None.

(** [task.status = s] and [task.result = r] *)
Definition set_status (s : TaskStatus) (task : t) : t :=
  mk (ask task) (resources task) s (result task).
Definition set_result (r : option string) (task : t) : t :=
  mk (ask task) (resources task) (status task) r.
End Task.

(** Modelled from the spec: [Plan] ([openssa.l2.planning.abstract.plan] is not
    among the sources) pairs a task with the ordered sequence of its
    sub-plans. *)
Module Plan.
Inductive t := mk { task : Task.t; sub_plans : list t }.

(** The plan after [sub_plan.task] has been updated in place. *)
Definition with_task (task : Task.t) (plan : t) : t := mk task (sub_plans plan).
(** The plan after the tasks of its sub-plans have been updated in place. *)
Definition with_sub_plans (sub_plans : list t) (plan : t) : t := mk (task plan) sub_plans.
End Plan.

(** A resolved sibling: [(sub_task.ask, sub_task.result)]. *)
Definition AskAnsPair : Type := string * option string.

(** A call into a collaborator: it reads and changes the world, and either
    returns or raises (the message stands for the exception). *)
Definition call (World A : Type) : Type := World → string + (A * World).

(** Modelled from the spec: the Reasoner interface ([openssa.l2.reasoning] is
    not among the sources).  By section 4.2, [reason(task, knowledge)] returns
    a text and leaves a status and a result on the task it was given. *)
Module AReasoner.
Class ops (World Reasoner : Type) := {
  reason : Reasoner → Task.t → gset string →
           call World (string * (TaskStatus * option string))
}.
End AReasoner.

(** Modelled from the spec: the Planner interface of section 4.3
    ([openssa.l2.planning] is not among the sources).  [max_depth] is a Python
    [int]; [truth] is the truth value of the planner object itself, which the
    agent tests in [if self.planner] and [planner or self.planner].  [plan]
    takes its knowledge optionally: [solve_dynamically] calls it without.  The
    law is the documented contract of [one_fewer_level_deep]. *)
Module APlanner.
Class ops (World Planner : Type) := {
  max_depth : Planner → Z;
  truth : Planner → bool;
  one_level_deep : Planner → Planner;
  one_fewer_level_deep : Planner → Planner;
  plan : Planner → string → gset Resource → option (gset string) → call World Plan.t;
  update_plan_resources :
    Planner → Plan.t → string → gset Resource → gset string → call World Plan.t;
  one_fewer_level_deep_max_depth :
    ∀ p, max_depth (one_fewer_level_deep p) = (max_depth p - 1)%Z
}.
End APlanner.

(** Modelled from the spec: what the agent needs of a Plan object (section
    4.6): its truth value (tested in [if plan]) and [execute], which
    synthesizes the answer of the plan's task from the results stored in its
    sub-plans, optionally informed by [other_results]. *)
Module APlan.
Class ops (World Reasoner : Type) := {
  truth : Plan.t → bool;
  execute : Plan.t → Reasoner → option (list AskAnsPair) → gset string → call World string
}.
End APlan.

(** ** State and effects *)

Section Effects.
Context {World : Type}.

(** [lists] is the store of the Python list objects created so far: a
    reference is an index into it. *)
Record state := State { world : World; lists : list (list AskAnsPair) }.

Inductive outcome (A : Type) :=
| Returns (a : A) (s : state)
| Raises (e : exn)
| OutOfFuel.

Definition M (A : Type) : Type := state → outcome A.

Definition ret {A} (a : A) : M A := λ s, Returns A a s.

Definition bind {A B} (f : A → M B) (m : M A) : M B :=
  λ s, match m s with
       | Returns _ a s' => f a s'
       | Raises _ e => Raises B e
       | OutOfFuel _ => OutOfFuel B
       end.

Definition raise {A} (e : exn) : M A := λ _, Raises A e.

Definition out_of_fuel {A} : M A := λ _, OutOfFuel A.

(** Calling a collaborator: its exception propagates unchanged. *)
Definition invoke {A} (c : call World A) : M A :=
  λ s, match c (world s) with
       | inl msg => Raises A (UpstreamError msg)
       | inr (a, w) => Returns A a (State w (lists s))
       end.

(** [[]]: a fresh list object. *)
Definition new_list : M nat :=
  λ s, Returns nat (length (lists s)) (State (world s) (lists s ++ [[]])).

(** [l.append(x)] *)
Definition append (l : nat) (x : AskAnsPair) : M unit :=
  λ s, Returns unit tt (State (world s) (alter (λ xs, xs ++ [x]) l (lists s))).

(** The elements of the list object [l] at this moment. *)
Definition contents (l : nat) : M (list AskAnsPair) :=
  λ s, Returns _ (default [] (lists s !! l)) s.

(** The same for an argument that is a list or [None]. *)
Definition contents_opt (l : option nat) : M (option (list AskAnsPair)) :=
  match l with
  | None => ret None
  | Some l => bind (λ xs, ret (Some xs)) (contents l)
  end.
End Effects.

Arguments state : clear implicits.
Arguments outcome : clear implicits.
Arguments M : clear implicits.
Arguments Returns {World A} a s.
Arguments Raises {World A} e.
Arguments OutOfFuel {World A}.

#[global] Instance M_ret {World} : MRet (M World) := @ret World.
#[global] Instance M_bind {World} : MBind (M World) := @bind World.

(** ** The Agent *)

Module Agent.
Record t (Planner Reasoner : Type) := mk {
  planner : option Planner;
  reasoner : Reasoner;
  resources : gset Resource;
  knowledge : gset string
}.
Arguments mk {Planner Reasoner}.
Arguments planner {Planner Reasoner}.
Arguments reasoner {Planner Reasoner}.
Arguments resources {Planner Reasoner}.
Arguments knowledge {Planner Reasoner}.

(** What one recursive call made by [solve_dynamically] was given and what it
    gave back; [visible] is the content of the list [other_results] refers to
    at the moment of the call.  Kept for the statements only. *)
Record Descent (Planner : Type) := descent {
  sub_problem : string;
  sub_planner_arg : option Planner;
  other_results_arg : option nat;
  visible : list AskAnsPair;
  sub_result : option string
}.
Arguments descent {Planner}.
Arguments sub_problem {Planner}.
Arguments sub_planner_arg {Planner}.
Arguments other_results_arg {Planner}.
Arguments visible {Planner}.
Arguments sub_result {Planner}.

(** What one call of [solve_dynamically] did: the value it returned, its local
    [task] as it was on return, the plan the Planner produced (when it
    decomposed), the recursive calls it made, in order, and the arguments
    [plan] and [other_results] of its [execute] call. *)
Record Run (Planner : Type) := run {
  returned : option string;
  final_task : Task.t;
  decomposition : option Plan.t;
  descents : list (Descent Planner);
  executed : option (Plan.t * option (list AskAnsPair))
}.
Arguments run {Planner}.
Arguments returned {Planner}.
Arguments final_task {Planner}.
Arguments decomposition {Planner}.
Arguments descents {Planner}.
Arguments executed {Planner}.

Section WithCollaborators.
Context {World Planner Reasoner : Type}.
Context `{!APlanner.ops World Planner, !AReasoner.ops World Reasoner,
          !APlan.ops World Reasoner}.

Abbreviation Agent := (t Planner Reasoner).

(** [self.knowledge] after an in-place update. *)
Definition with_knowledge (knowledge : gset string) (self : Agent) : Agent :=
  mk (planner self) (reasoner self) (resources self) knowledge.

(** [Agent.add_knowledge]: the new agent, or the exception raised. *)
Definition add_knowledge (self : Agent) (new_knowledge : pyvalue) : exn + Agent :=
  match isinstance new_knowledge (Class_ cls_str) with
  | inl e => inl e
  | inr true =>
      (* self.knowledge.add(new_knowledge) *)
      inr (with_knowledge ({[ str_of new_knowledge ]} ∪ knowledge self) self)
  | inr false =>
      match isinstance new_knowledge (GenericAlias cls_set [cls_str]) with
      | inl e => inl e
      | inr true =>
          (* self.knowledge.update(new_knowledge) *)
          inr (with_knowledge (knowledge self ∪ set_of new_knowledge) self)
      | inr false => inl ValueError
      end
  end.

(** [planner or self.planner]: the first operand when it is truthy,
    otherwise the second, whatever that is. *)
Definition planner_or (planner fallback : option Planner) : option Planner :=
  match planner with
  | Some p => if APlanner.truth p then Some p else fallback
  | None => fallback
  end.

(** The run of a call that did not decompose. *)
Definition direct (task : Task.t) : Run Planner :=
  run (Task.result task) task None [] None.

(** The loop over [plan_1_level_deep.sub_plans].  [solve] is the recursive
    call; the loop returns the sub-plans with their tasks updated, and the
    record of the calls it made. *)
Fixpoint for_sub_plans
    (solve : string → option Planner → option nat → M World (Run Planner))
    (sub_planner : Planner) (sub_results : nat) (sub_plans : list Plan.t)
    : M World (list Plan.t * list (Descent Planner)) :=
  match sub_plans with
  | [] => mret ([], [])
  | sub_plan :: rest =>
      let sub_task := Plan.task sub_plan in
      seen ← contents sub_results;
      r ← solve (Task.ask sub_task) (Some sub_planner) (Some sub_results);
      let sub_task := Task.set_result (returned r) sub_task in
      let sub_task := Task.set_status DONE sub_task in
      _ ← append sub_results (Task.ask sub_task, Task.result sub_task);
      '(rest, ds) ← for_sub_plans solve sub_planner sub_results rest;
      mret (Plan.with_task sub_task sub_plan :: rest,
            descent (Task.ask sub_task) (Some sub_planner) (Some sub_results)
                    seen (returned r) :: ds)
  end.

(** [Agent.solve_dynamically], with the record of what the call did.
    [fuel] bounds the nesting of recursive calls. *)
Fixpoint solve_dynamically_run (fuel : nat) (self : Agent) (problem : string)
    (planner : option Planner) (other_results : option nat)
    : M World (Run Planner) :=
  match fuel with
  | O => out_of_fuel
  | S fuel =>
      (* attempt direct solution with Reasoner *)
      let task := Task.new problem (resources self) in
      '(_, (status, result)) ←
         invoke (AReasoner.reason (reasoner self) task (knowledge self));
      let task := Task.set_result result (Task.set_status status task) in
      if TaskStatus_eqb (Task.status task) NEEDING_DECOMPOSITION then
        match planner_or planner (Agent.planner self) with
        | None => raise AttributeError
        | Some planner =>
            if int_truth (APlanner.max_depth planner) then
              let sub_planner := APlanner.one_fewer_level_deep planner in
              sub_results ← new_list;
              plan_1_level_deep ←
                invoke (APlanner.plan (APlanner.one_level_deep planner)
                                      problem (resources self) None);
              '(sub_plans, ds) ←
                for_sub_plans (solve_dynamically_run fuel self) sub_planner
                              sub_results (Plan.sub_plans plan_1_level_deep);
              let resolved := Plan.with_sub_plans sub_plans plan_1_level_deep in
              siblings ← contents_opt other_results;
              text ← invoke (APlan.execute resolved (reasoner self)
                                           siblings (knowledge self));
              let task := Task.set_result (Some text) task in
              let task := Task.set_status DONE task in
              mret (run (Task.result task) task (Some plan_1_level_deep) ds
                        (Some (resolved, siblings)))
            else mret (direct task)
        end
      else mret (direct task)
  end.

(** [Agent.solve_dynamically]: the returned value alone. *)
Definition solve_dynamically (fuel : nat) (self : Agent) (problem : string)
    (planner : option Planner) (other_results : option nat)
    : M World (option string) :=
  r ← solve_dynamically_run fuel self problem planner other_results;
  mret (returned r).

(** Truth value of an optional object: [None] is falsy. *)
Definition plan_truth (plan : option Plan.t) : bool :=
  match plan with Some p => APlan.truth p | None => false end.
Definition planner_truth (planner : option Planner) : bool :=
  match planner with Some p => APlanner.truth p | None => false end.

(** A [match] statement: the body of the first case whose pattern matches
    and whose guard holds; nothing when there is none. *)
Fixpoint py_match {S A : Type} (subject : S) (cases : list (S → option A)) : option A :=
  match cases with
  | [] => None
  | case :: cases =>
      match case subject with
      | Some body => Some body
      | None => py_match subject cases
      end
  end.

(** [Agent.solve].  The calls to [logger.info] are left out.  When no case
    matched, [result] would be unbound at [return result]. *)
Definition solve (fuel : nat) (self : Agent) (problem : string)
    (plan : option Plan.t) (dynamic : bool) : M World (option string) :=
  let execute (plan : Plan.t) : M World (option string) :=
    text ← invoke (APlan.execute plan (reasoner self) None (knowledge self));
    mret (Some text) in
  let cases : list (option Plan.t * option Planner * bool → option (M World (option string))) := [
    (* NO PLAN: case (None, None, _) *)
    (λ subject,
       match subject with
       | (None, None, _) =>
           Some ('(text, _) ←
                   invoke (AReasoner.reason (reasoner self)
                             (Task.new problem (resources self)) (knowledge self));
                 mret (Some text))
       | _ => None
       end);
    (* AUTOMATED STATIC PLAN: case (None, _, False) if self.planner *)
    (λ subject,
       match subject with
       | (None, _, false) =>
           match Agent.planner self with
           | Some p =>
               if APlanner.truth p then
                 Some (plan ← invoke (APlanner.plan p problem (resources self)
                                        (Some (knowledge self)));
                       execute plan)
               else None
           | None => None
           end
       | _ => None
       end);
    (* AUTOMATED DYNAMIC PLAN: case (None, _, True) if self.planner *)
    (λ subject,
       match subject with
       | (None, _, true) =>
           if planner_truth (Agent.planner self)
           then Some (solve_dynamically fuel self problem None None)
           else None
       | _ => None
       end);
    (* EXPERT-SPECIFIED STATIC PLAN: case (_, None, _) if plan *)
    (λ subject,
       match subject with
       | (_, None, _) =>
           match plan with
           | Some plan => if APlan.truth plan then Some (execute plan) else None
           | None => None
           end
       | _ => None
       end);
    (* EXPERT-SPECIFIED STATIC PLAN, with Resource updating:
       case (_, _, False) if (plan and self.planner) *)
    (λ subject,
       match subject with
       | (_, _, false) =>
           match plan, Agent.planner self with
           | Some plan, Some p =>
               if APlan.truth plan && APlanner.truth p then
                 Some (plan ← invoke (APlanner.update_plan_resources p plan problem
                                        (resources self) (knowledge self));
                       execute plan)
               else None
           | _, _ => None
           end
       | _ => None
       end);
    (* EXPERT-GUIDED DYNAMIC PLAN: case (_, _, True) if (plan and self.planner) *)
    (λ subject,
       match subject with
       | (_, _, true) =>
           if plan_truth plan && planner_truth (Agent.planner self)
           then Some (raise NotImplementedError)
           else None
       | _ => None
       end);
    (* case _ *)
    (λ _, Some (raise ValueError))
  ] in
  match py_match (plan, Agent.planner self, dynamic) cases with
  | Some body => body
  | None => raise UnboundLocalError
  end.

(** The dict comprehension [{r.unique_name: r.overview for r in ...}] over the
    resources in the sequence they are iterated in: a later resource
    overwrites the entry of an earlier one with the same name. *)
Definition overviews_of (sequence : list Resource) : gmap string string :=
  foldl (λ d r, <[unique_name r := overview r]> d) ∅ sequence.

(** [Agent.resource_overviews].  [iteration] is the order in which Python
    iterates a set; the language fixes nothing about it but that every element
    comes once. *)
Definition resource_overviews (iteration : gset Resource → list Resource)
    (self : Agent) : gmap string string :=
  overviews_of (iteration (resources self)).
End WithCollaborators.
End Agent.

(** ** Vocabulary of the statements *)

(** The exceptions a dynamic solve can end with: its own [AttributeError], or
    whatever a collaborator raised. *)
Definition own_or_upstream (e : exn) : Prop :=
  e = AttributeError ∨ ∃ msg, e = UpstreamError msg.

Section Vocabulary.
Context {World Planner Reasoner : Type}.
Context `{!APlanner.ops World Planner, !AReasoner.ops World Reasoner,
          !APlan.ops World Reasoner}.

(** The pair a resolved descent contributes to its later siblings' context. *)
Definition pair_of (d : Agent.Descent Planner) : AskAnsPair :=
  (Agent.sub_problem d, Agent.sub_result d).

(** Forward-only sibling context: each descent saw [acc] followed by the pairs
    of the descents before it, in order. *)
Fixpoint sibling_context (acc : list AskAnsPair) (ds : list (Agent.Descent Planner)) : Prop :=
  match ds with
  | [] => True
  | d :: ds => Agent.visible d = acc ∧ sibling_context (acc ++ [pair_of d]) ds
  end.

(** The sub-plan after its descent: result set to the returned value, status
    set to [DONE]. *)
Definition resolve_with (d : Agent.Descent Planner) (sub_plan : Plan.t) : Plan.t :=
  Plan.with_task
    (Task.set_status DONE (Task.set_result (Agent.sub_result d) (Plan.task sub_plan)))
    sub_plan.

(** The descent [d] records a call of [solve] that returned, and the list
    object [sub_results] held [visible d] both when the call started and when
    it returned. *)
Definition resolved_by
    (solve : string → option Planner → option nat → M World (Agent.Run Planner))
    (sub_results : nat) (d : Agent.Descent Planner) : Prop :=
  ∃ s1 r s2,
    solve (Agent.sub_problem d) (Agent.sub_planner_arg d) (Agent.other_results_arg d) s1
      = Returns r s2
    ∧ Agent.returned r = Agent.sub_result d
    ∧ lists s1 !! sub_results = Some (Agent.visible d)
    ∧ lists s2 !! sub_results = Some (Agent.visible d).

(** The six rows of the dispatch table: the plan, and the agent's planner, are
    each either absent or a truthy object. *)
Definition usable {A} (truth : A → bool) (o : option A) : bool :=
  match o with None => true | Some x => truth x end.

Definition documented_row (plan : option Plan.t) (planner : option Planner) : bool :=
  usable APlan.truth plan && usable APlanner.truth planner.

(** The dispatch table of the spec (section 4.4), read with "present" as "a
    truthy object" and "absent" as [None]; a row is selected by the explicit
    plan, the agent's planner and [dynamic], and everything outside the six
    rows is an invalid configuration. *)
Inductive Strategy :=
| ReasonDirectly
| PlanThenExecute (p : Planner)
| DecomposeRecursively
| ExecuteGiven (plan : Plan.t)
| UpdateThenExecute (p : Planner) (plan : Plan.t)
| FailNotImplemented
| FailInvalidConfiguration.

Definition dispatch_table (plan : option Plan.t) (planner : option Planner)
    (dynamic : bool) : Strategy :=
  match plan, planner, dynamic with
  | None, None, _ => ReasonDirectly
  | None, Some p, false =>
      if APlanner.truth p then PlanThenExecute p else FailInvalidConfiguration
  | None, Some p, true =>
      if APlanner.truth p then DecomposeRecursively else FailInvalidConfiguration
  | Some plan, None, _ =>
      if APlan.truth plan then ExecuteGiven plan else FailInvalidConfiguration
  | Some plan, Some p, false =>
      if APlan.truth plan && APlanner.truth p
      then UpdateThenExecute p plan else FailInvalidConfiguration
  | Some plan, Some p, true =>
      if APlan.truth plan && APlanner.truth p
      then FailNotImplemented else FailInvalidConfiguration
  end.

(** What each strategy of the table does. *)
Definition perform (fuel : nat) (self : Agent.t Planner Reasoner) (problem : string)
    (strategy : Strategy) : M World (option string) :=
  let execute (plan : Plan.t) : M World (option string) :=
    text ← invoke (APlan.execute plan (Agent.reasoner self) None (Agent.knowledge self));
    mret (Some text) in
  match strategy with
  | ReasonDirectly =>
      '(text, _) ← invoke (AReasoner.reason (Agent.reasoner self)
                             (Task.new problem (Agent.resources self))
                             (Agent.knowledge self));
      mret (Some text)
  | PlanThenExecute p =>
      plan ← invoke (APlanner.plan p problem (Agent.resources self)
                                   (Some (Agent.knowledge self)));
      execute plan
  | DecomposeRecursively => Agent.solve_dynamically fuel self problem None None
  | ExecuteGiven plan => execute plan
  | UpdateThenExecute p plan =>
      plan ← invoke (APlanner.update_plan_resources p plan problem
                       (Agent.resources self) (Agent.knowledge self));
      execute plan
  | FailNotImplemented => raise NotImplementedError
  | FailInvalidConfiguration => raise ValueError
  end.

(** The elements an [other_results] argument refers to in a state. *)
Definition siblings_in (s : state World) (other_results : option nat)
    : option (list AskAnsPair) :=
  match other_results with
  | None => None
  | Some l => Some (default [] (lists s !! l))
  end.

(** The guard of the decomposition in [solve_dynamically]: the Reasoner left
    [NEEDING_DECOMPOSITION] and the active planner's [max_depth] is truthy. *)
Definition decomposes (status : TaskStatus) (active : option Planner) : bool :=
  TaskStatus_eqb status NEEDING_DECOMPOSITION
  && match active with
     | Some p => int_truth (APlanner.max_depth p)
     | None => false
     end.

(** What a call does when the Reasoner returned: the direct run. *)
Definition reasoned (problem : string) (resources : gset Resource)
    (status : TaskStatus) (result : option string) : Agent.Run Planner :=
  Agent.direct (Task.mk problem resources status result).
End Vocabulary.

(** ** A small deployment, to run the agent on

    The world counts the collaborator calls made so far.  A reasoner is the
    status it leaves on a task, by question; a planner carries its depth
    budget, its truth value and the sub-questions it splits a problem into.
    A plan is truthy when it has sub-plans (a Plan class whose [__len__] is
    the number of its sub-plans). *)

Module Demo.
Record planner := {
  depth : Z;
  truthy : bool;
  decompose : string → list string
}.

Definition reasoner : Type := string → TaskStatus.

#[global] Instance reasoner_ops : AReasoner.ops nat reasoner := {|
  AReasoner.reason r task knowledge w :=
    let text := "re:" +:+ Task.ask task in
    inr ((text, (r (Task.ask task), Some text)), S w)
|}.

#[global] Instance planner_ops : APlanner.ops nat planner := {|
  APlanner.max_depth := depth;
  APlanner.truth := truthy;
  APlanner.one_level_deep p := {| depth := 1; truthy := true; decompose := decompose p |};
  APlanner.one_fewer_level_deep p :=
    {| depth := depth p - 1; truthy := true; decompose := decompose p |};
  APlanner.plan p problem resources knowledge w :=
    inr (Plan.mk (Task.new problem resources)
                 (map (λ a, Plan.mk (Task.new a resources) []) (decompose p problem)),
         S w);
  APlanner.update_plan_resources p plan problem resources knowledge w := inr (plan, S w);
  APlanner.one_fewer_level_deep_max_depth p := eq_refl
|}.

#[global] Instance plan_ops : APlan.ops nat reasoner := {|
  APlan.truth plan := negb (bool_decide (Plan.sub_plans plan = []));
  APlan.execute plan r other_results knowledge w :=
    inr ("all of:" +:+
         String.concat "," (map (λ p, default "?" (Task.result (Plan.task p)))
                                (Plan.sub_plans plan)),
         S w)
|}.

Definition abc (problem : string) : list string :=
  [problem +:+ "a"; problem +:+ "b"; problem +:+ "c"].

Definition planner_of (d : Z) : planner :=
  {| depth := d; truthy := true; decompose := abc |}.

Definition falsy_planner : planner :=
  {| depth := 2; truthy := false; decompose := abc |}.

Definition always_decompose : reasoner := λ _, NEEDING_DECOMPOSITION.
Definition always_resolve : reasoner := λ _, RESOLVED.
Definition decompose_only (problem : string) : reasoner :=
  λ a, if String.eqb a problem then NEEDING_DECOMPOSITION else RESOLVED.

Definition agent (p : option planner) (r : reasoner) : Agent.t planner reasoner :=
  Agent.mk p r ∅ ∅.

Definition leaf (a : string) : Plan.t := Plan.mk (Task.new a ∅) [].
Definition two_step : Plan.t := Plan.mk (Task.new "X" ∅) [leaf "X1"; leaf "X2"].

Definition start : state nat := State 0 [].
End Demo.

(** A second planner class, whose objects are all falsy (say its [__len__]
    is always 0): a planner is its depth budget, and every problem is split
    into one sub-question. *)
Module Sticky.
Definition planner : Type := Z.

#[global] Instance planner_ops : APlanner.ops nat planner := {|
  APlanner.max_depth p := p;
  APlanner.truth _ := false;
  APlanner.one_level_deep _ := 1%Z;
  APlanner.one_fewer_level_deep p := (p - 1)%Z;
  APlanner.plan p problem resources knowledge w :=
    inr (Plan.mk (Task.new problem resources)
                 [Plan.mk (Task.new (problem +:+ "'") resources) []],
         S w);
  APlanner.update_plan_resources p plan problem resources knowledge w := inr (plan, S w);
  APlanner.one_fewer_level_deep_max_depth p := eq_refl
|}.

Definition agent (d : Z) : Agent.t planner Demo.reasoner :=
  Agent.mk (Some d) Demo.always_decompose ∅ ∅.
End Sticky.

(** ** The SSM adapter

    [openssm/core/adapter/base_adapter.py].  The adapter keeps, in
    [_backends], [None] or a Python list of backends; the list is an object
    that the adapter may share with whoever passed it in, so it lives in a
    store and the adapter holds a reference. *)

(** What the adapter calls on a backend.  [AbstractBackend] and [TextBackend]
    are not among the sources: the methods are taken as parameters, calls that
    read and change the world; [TextBackend] is the constructor
    [TextBackend()].  A backend's [query] may answer a list or [None]. *)
Module AbstractBackend.
Class ops (World Backend Value : Type) := {
  TextBackend : call World Backend;
  query : Backend → string → option string → call World (option (list Value));
  list_facts : Backend → call World Value;
  list_inferencers : Backend → call World Value;
  list_heuristics : Backend → call World Value;
  select_facts : Backend → Value → call World Value;
  select_inferencers : Backend → Value → call World Value;
  select_heuristics : Backend → Value → call World Value;
  add_fact : Backend → string → call World unit;
  add_inferencer : Backend → Value → call World unit;
  add_heuristic : Backend → string → call World unit
}.
End AbstractBackend.

Module BaseAdapter.
(** What a method of the adapter can end with. *)
Inductive error :=
| IndexError
| Python (e : exn).

(** The adapter object: [self._backends] is [None] or a reference to a list. *)
Record t := mk { _backends : option nat }.

Section Store.
Context {World Backend : Type}.

(** The world of the backends, and the store of the Python lists of backends;
    an entry of such a list is a backend or [None]. *)
Record heap := Heap { outside : World; objects : list (list (option Backend)) }.

Inductive result (A : Type) :=
| Returned (a : A) (h : heap)
| Raised (e : error).

Definition Eff (A : Type) : Type := heap → result A.

Definition unit_ {A} (a : A) : Eff A := λ h, Returned A a h.

Definition then_ {A B} (f : A → Eff B) (m : Eff A) : Eff B :=
  λ h, match m h with
       | Returned _ a h' => f a h'
       | Raised _ e => Raised B e
       end.

Definition throw {A} (e : error) : Eff A := λ _, Raised A e.
End Store.

Arguments heap : clear implicits.
Arguments result : clear implicits.
Arguments Eff : clear implicits.
Arguments Returned {World Backend A} a h.
Arguments Raised {World Backend A} e.

#[global] Instance Eff_ret {World Backend} : MRet (Eff World Backend) :=
  @unit_ World Backend.
#[global] Instance Eff_bind {World Backend} : MBind (Eff World Backend) :=
  @then_ World Backend.

Section WithBackends.
Context {World Backend Value : Type}.
Context `{!AbstractBackend.ops World Backend Value}.

Abbreviation Eff := (Eff World Backend).

(** A call into a backend, or of the constructor [TextBackend()]. *)
Definition ask {A} (c : call World A) : Eff A :=
  λ h, match c (outside h) with
       | inl msg => Raised (Python (UpstreamError msg))
       | inr (a, w) => Returned a (Heap w (objects h))
       end.

(** A method call on an entry of the list: on [None] it is an
    [AttributeError]. *)
Definition method {A} (b : option Backend) (m : Backend → call World A) : Eff A :=
  match b with
  | None => throw (Python AttributeError)
  | Some b => ask (m b)
  end.

(** A new list object [[x, ...]], the elements of a list object, and
    [l.append(x)]. *)
Definition alloc (xs : list (option Backend)) : Eff nat :=
  λ h, Returned (length (objects h)) (Heap (outside h) (objects h ++ [xs])).

Definition read (l : nat) : Eff (list (option Backend)) :=
  λ h, Returned (default [] (objects h !! l)) h.

Definition push (l : nat) (x : option Backend) : Eff unit :=
  λ h, Returned tt (Heap (outside h) (alter (λ xs, xs ++ [x]) l (objects h))).

(** [BaseAdapter(backends)] *)
Definition __init__ (backends : option nat) : t := mk backends.

(** The property [backends]: when [_backends] is [None] or an empty list, it
    is replaced by a new list holding a new [TextBackend]. *)
Definition backends (self : t) : Eff (nat * t) :=
  let default_backends : Eff (nat * t) :=
    b ← ask AbstractBackend.TextBackend;
    l ← alloc [Some b];
    mret (l, mk (Some l)) in
  match _backends self with
  | None => default_backends
  | Some l =>
      xs ← read l;
      if length xs =? 0 then default_backends else mret (l, self)
  end.

(** The setter of [backends]. *)
Definition backends_setter (self : t) (backends : option nat) : t := mk backends.

(** [b.query(user_input, conversation_id) or []] *)
Definition or_empty (answer : option (list Value)) : list Value :=
  match answer with
  | Some (x :: xs) => x :: xs
  | Some [] | None => []
  end.

(** The comprehension of [query], over the entries of the list. *)
Fixpoint responses (bs : list (option Backend)) (user_input : string)
    (conversation_id : option string) : Eff (list Value) :=
  match bs with
  | [] => mret []
  | None :: bs => responses bs user_input conversation_id
  | Some b :: bs =>
      answer ← ask (AbstractBackend.query b user_input conversation_id);
      rest ← responses bs user_input conversation_id;
      mret (or_empty answer ++ rest)
  end.

Definition query (self : t) (user_input : string) (conversation_id : option string)
    : Eff (list Value * t) :=
  '(l, self) ← backends self;
  bs ← read l;
  rs ← responses bs user_input conversation_id;
  mret (rs, self).

Definition add_backend (self : t) (backend : option Backend) : Eff (unit * t) :=
  '(l, self) ← backends self;
  _ ← push l backend;
  mret (tt, self).

(** The loop of [enumerate_backends]: [results] after the last iteration. *)
Fixpoint collect {R} (lambda_function : option Backend → Eff R)
    (bs : list (option Backend)) : Eff (list R) :=
  match bs with
  | [] => mret []
  | backend :: bs =>
      x ← lambda_function backend;
      results ← collect lambda_function bs;
      mret (x :: results)
  end.

(** [enumerate_backends]: there is no [return], so the value is [None]
    whatever [results] holds. *)
Definition enumerate_backends {R} (self : t)
    (lambda_function : option Backend → Eff R) : Eff (option (list R) * t) :=
  '(l, self) ← backends self;
  bs ← read l;
  results ← collect lambda_function bs;
  mret (None, self).

Definition facts (self : t) : Eff (option (list Value) * t) :=
  enumerate_backends self (λ backend, method backend AbstractBackend.list_facts).

Definition inferencers (self : t) : Eff (option (list Value) * t) :=
  enumerate_backends self (λ backend, method backend AbstractBackend.list_inferencers).

Definition heuristics (self : t) : Eff (option (list Value) * t) :=
  enumerate_backends self (λ backend, method backend AbstractBackend.list_heuristics).

Definition select_facts (self : t) (criteria : Value) : Eff (option (list Value) * t) :=
  enumerate_backends self
    (λ backend, method backend (λ b, AbstractBackend.select_facts b criteria)).

Definition select_inferencers (self : t) (criteria : Value)
    : Eff (option (list Value) * t) :=
  enumerate_backends self
    (λ backend, method backend (λ b, AbstractBackend.select_inferencers b criteria)).

Definition select_heuristics (self : t) (criteria : Value)
    : Eff (option (list Value) * t) :=
  enumerate_backends self
    (λ backend, method backend (λ b, AbstractBackend.select_heuristics b criteria)).

(** [self.backends[0]] *)
Definition _get_first_backend (self : t) : Eff (option Backend * t) :=
  '(l, self) ← backends self;
  bs ← read l;
  match bs !! 0 with
  | Some backend => mret (backend, self)
  | None => throw IndexError
  end.

Definition add_fact (self : t) (fact : string) : Eff (unit * t) :=
  '(backend, self) ← _get_first_backend self;
  _ ← method backend (λ b, AbstractBackend.add_fact b fact);
  mret (tt, self).

Definition add_inferencer (self : t) (inferencer : Value) : Eff (unit * t) :=
  '(backend, self) ← _get_first_backend self;
  _ ← method backend (λ b, AbstractBackend.add_inferencer b inferencer);
  mret (tt, self).

Definition add_heuristic (self : t) (heuristic : string) : Eff (unit * t) :=
  '(backend, self) ← _get_first_backend self;
  _ ← method backend (λ b, AbstractBackend.add_heuristic b heuristic);
  mret (tt, self).

(** The entries [_backends] holds at the moment: none for [None]. *)
Definition entries (self : t) (h : heap World Backend) : list (option Backend) :=
  match _backends self with
  | Some l => default [] (objects h !! l)
  | None => []
  end.

(** [save] and [load] do nothing. *)
Definition save (self : t) (storage_dir : string) : Eff (unit * t) := mret (tt, self).
Definition load (self : t) (storage_dir : string) : Eff (unit * t) := mret (tt, self).
End WithBackends.
End BaseAdapter.

(** A store of backends to run the adapter on: the world is the log of the
    calls made, newest first; a backend is its name; ["text"] is the one
    [TextBackend()] makes; the [query] of ["broken"] raises, ["mute"] answers
    [None], the others answer one response. *)
Module Shelf.
#[global] Instance backend_ops : AbstractBackend.ops (list string) string string := {|
  AbstractBackend.TextBackend w := inr ("text", "TextBackend()" :: w);
  AbstractBackend.query b user_input conversation_id w :=
    if String.eqb b "broken" then inl "backend down"
    else inr (if String.eqb b "mute" then None else Some [b +:+ " on " +:+ user_input],
              (b +:+ ".query") :: w);
  AbstractBackend.list_facts b w := inr (b +:+ " facts", (b +:+ ".list_facts") :: w);
  AbstractBackend.list_inferencers b w :=
    inr (b +:+ " inferencers", (b +:+ ".list_inferencers") :: w);
  AbstractBackend.list_heuristics b w :=
    inr (b +:+ " heuristics", (b +:+ ".list_heuristics") :: w);
  AbstractBackend.select_facts b criteria w :=
    inr (b +:+ " facts", (b +:+ ".select_facts") :: w);
  AbstractBackend.select_inferencers b criteria w :=
    inr (b +:+ " inferencers", (b +:+ ".select_inferencers") :: w);
  AbstractBackend.select_heuristics b criteria w :=
    inr (b +:+ " heuristics", (b +:+ ".select_heuristics") :: w);
  AbstractBackend.add_fact b fact w := inr (tt, (b +:+ ".add_fact " +:+ fact) :: w);
  AbstractBackend.add_inferencer b inferencer w :=
    inr (tt, (b +:+ ".add_inferencer") :: w);
  AbstractBackend.add_heuristic b heuristic w :=
    inr (tt, (b +:+ ".add_heuristic " +:+ heuristic) :: w)
|}.

Definition empty : BaseAdapter.heap (list string) string := BaseAdapter.Heap [] [].
Definition with_list (bs : list (option string)) : BaseAdapter.heap (list string) string :=
  BaseAdapter.Heap [] [bs].
End Shelf.

(** Agents with resources, and a planner that finds nothing to split. *)
Module Library.
Definition manual : Resource :=
  {| unique_name := "manual"; overview := "The operating manual" |}.
Definition log_2023 : Resource :=
  {| unique_name := "log"; overview := "Voyages of 2023" |}.
Definition log_2024 : Resource :=
  {| unique_name := "log"; overview := "Voyages of 2024" |}.

Definition librarian : Agent.t Demo.planner Demo.reasoner :=
  Agent.mk None Demo.always_resolve {[ manual; log_2024 ]} ∅.

(** Two logs under one name. *)
Definition archive : Agent.t Demo.planner Demo.reasoner :=
  Agent.mk None Demo.always_resolve {[ log_2023; log_2024 ]} ∅.

Definition stuck_planner : Demo.planner :=
  {| Demo.depth := 1; Demo.truthy := true; Demo.decompose := λ _, [] |}.

(** A recursive call that fails on the question ["bad"]. *)
Definition fragile (a : string) (p : option Demo.planner) (o : option nat)
    : M nat (Agent.Run Demo.planner) :=
  λ s, if String.eqb a "bad" then Raises (UpstreamError "model down")
       else Returns (Agent.direct (Task.mk a ∅ RESOLVED (Some ("re:" +:+ a)))) s.
End Library.

(** ** Properties of the agent *)

Section Properties.
Context {World Planner Reasoner : Type}.
Context `{!APlanner.ops World Planner, !AReasoner.ops World Reasoner,
          !APlan.ops World Reasoner}.

Implicit Types (self : Agent.t Planner Reasoner) (s : state World).
Implicit Types (solve : string → option Planner → option nat → M World (Agent.Run Planner)).

(** Case analysis on the outcome of the Reasoner's call. *)
Ltac case_reason :=
  destruct (AReasoner.reason _ _ _ _) as [msg|[[text [status result]] w]].

(** *** The effects, one step at a time *)

Lemma bind_eq {A B} (f : A → M World B) (m : M World A) s :
  (m ≫= f) s = match m s with
               | Returns a s' => f a s'
               | Raises e => Raises e
               | OutOfFuel => OutOfFuel
               end.
Proof. reflexivity. Qed.

Lemma bind_returns {A B} (f : A → M World B) (m : M World A) s b s' :
  (m ≫= f) s = Returns b s' → ∃ a s1, m s = Returns a s1 ∧ f a s1 = Returns b s'.
Proof.
  rewrite bind_eq. destruct (m s) as [a s1| |]; [eauto | discriminate..].
Qed.

Lemma invoke_eq {A} (c : call World A) s :
  invoke c s = match c (world s) with
               | inl msg => Raises (UpstreamError msg)
               | inr (a, w) => Returns a (State w (lists s))
               end.
Proof. reflexivity. Qed.

Lemma invoke_returns {A} (c : call World A) s a s' :
  invoke c s = Returns a s' → ∃ w, c (world s) = inr (a, w) ∧ s' = State w (lists s).
Proof.
  rewrite invoke_eq. destruct (c (world s)) as [msg|[a' w]]; [discriminate|].
  intros [= -> <-]. eauto.
Qed.

Lemma invoke_ends {A} (c : call World A) s : invoke c s ≠ OutOfFuel.
Proof. rewrite invoke_eq. by destruct (c (world s)) as [msg|[a w]]. Qed.

Lemma contents_opt_eq (o : option nat) s :
  contents_opt o s = Returns (siblings_in s o) s.
Proof. destruct o; reflexivity. Qed.

(** One unfolding of [solve_dynamically_run], with the Reasoner's call made. *)
Lemma solve_dynamically_run_S fuel self problem planner other_results s :
  Agent.solve_dynamically_run (S fuel) self problem planner other_results s =
  match AReasoner.reason (Agent.reasoner self) (Task.new problem (Agent.resources self))
                         (Agent.knowledge self) (world s) with
  | inl msg => Raises (UpstreamError msg)
  | inr ((_, (status, result)), w) =>
      let s1 := State w (lists s) in
      let task := Task.mk problem (Agent.resources self) status result in
      if TaskStatus_eqb status NEEDING_DECOMPOSITION then
        match Agent.planner_or planner (Agent.planner self) with
        | None => Raises AttributeError
        | Some p =>
            if int_truth (APlanner.max_depth p) then
              (sub_results ← new_list;
               plan_1 ← invoke (APlanner.plan (APlanner.one_level_deep p) problem
                                              (Agent.resources self) None);
               '(sub_plans, ds) ←
                 Agent.for_sub_plans (Agent.solve_dynamically_run fuel self)
                   (APlanner.one_fewer_level_deep p) sub_results (Plan.sub_plans plan_1);
               siblings ← contents_opt other_results;
               text ← invoke (APlan.execute (Plan.with_sub_plans sub_plans plan_1)
                                            (Agent.reasoner self) siblings
                                            (Agent.knowledge self));
               mret (Agent.run (Some text)
                       (Task.mk problem (Agent.resources self) DONE (Some text))
                       (Some plan_1) ds
                       (Some (Plan.with_sub_plans sub_plans plan_1, siblings)))) s1
            else Returns (reasoned problem (Agent.resources self) status result) s1
        end
      else Returns (reasoned problem (Agent.resources self) status result) s1
  end.
Proof.
  cbn [Agent.solve_dynamically_run]. rewrite bind_eq, invoke_eq.
  case_reason; [done|].
  cbn. destruct (TaskStatus_eqb status NEEDING_DECOMPOSITION); [|done].
  destruct (Agent.planner_or _ _) as [p|]; [|done].
  destruct (int_truth _); done.
Qed.

Lemma for_sub_plans_cons solve sub_planner sub_results sub_plan rest s :
  Agent.for_sub_plans solve sub_planner sub_results (sub_plan :: rest) s =
  match solve (Task.ask (Plan.task sub_plan)) (Some sub_planner) (Some sub_results) s with
  | Returns r s1 =>
      let d := Agent.descent (Task.ask (Plan.task sub_plan)) (Some sub_planner)
                             (Some sub_results) (default [] (lists s !! sub_results))
                             (Agent.returned r) in
      match Agent.for_sub_plans solve sub_planner sub_results rest
              (State (world s1) (alter (λ xs, xs ++ [pair_of d]) sub_results (lists s1))) with
      | Returns (rest', ds) s2 => Returns (resolve_with d sub_plan :: rest', d :: ds) s2
      | Raises e => Raises e
      | OutOfFuel => OutOfFuel
      end
  | Raises e => Raises e
  | OutOfFuel => OutOfFuel
  end.
Proof.
  cbn [Agent.for_sub_plans]. rewrite bind_eq. cbn [contents]. rewrite bind_eq.
  destruct (solve _ _ _ s) as [r s1| |]; [|done..].
  rewrite bind_eq. cbn [append]. rewrite bind_eq.
  destruct (Agent.for_sub_plans _ _ _ _ _) as [[rest' ds] s2| |]; done.
Qed.

(** *** Fuel *)

(** A loop whose recursive calls do not run out of fuel behaves the same with
    any function that agrees with [solve] on such calls. *)
Lemma for_sub_plans_agree solve solve' sub_planner sub_results sub_plans s :
  (∀ a p o s, solve a p o s ≠ OutOfFuel → solve' a p o s = solve a p o s) →
  Agent.for_sub_plans solve sub_planner sub_results sub_plans s ≠ OutOfFuel →
  Agent.for_sub_plans solve' sub_planner sub_results sub_plans s
  = Agent.for_sub_plans solve sub_planner sub_results sub_plans s.
Proof.
  intros Hagree. revert s.
  induction sub_plans as [|sub_plan rest IH]; intros s; [done|].
  rewrite !for_sub_plans_cons.
  destruct (solve _ _ _ s) as [r s1| |] eqn:Hcall.
  - rewrite Hagree, Hcall by (rewrite Hcall; done). cbn zeta.
    intros Hrest. rewrite IH; [done|].
    intros Hout. apply Hrest. by rewrite Hout.
  - rewrite Hagree, Hcall by (rewrite Hcall; done). done.
  - done.
Qed.

Lemma solve_dynamically_run_more_fuel fuel self problem planner other_results s :
  Agent.solve_dynamically_run fuel self problem planner other_results s ≠ OutOfFuel →
  Agent.solve_dynamically_run (S fuel) self problem planner other_results s
  = Agent.solve_dynamically_run fuel self problem planner other_results s.
Proof.
  revert problem planner other_results s.
  induction fuel as [|fuel IH]; intros problem planner other_results s; [done|].
  rewrite (solve_dynamically_run_S (S fuel)), (solve_dynamically_run_S fuel).
  case_reason; [done|].
  cbn zeta. destruct (TaskStatus_eqb _ _); [|done].
  destruct (Agent.planner_or _ _) as [p|]; [|done].
  destruct (int_truth _); [|done].
  rewrite !bind_eq. cbn [new_list].
  rewrite !bind_eq. destruct (invoke _ _) as [plan_1 s2| |]; [|done..].
  rewrite !bind_eq.
  destruct (Agent.for_sub_plans (Agent.solve_dynamically_run fuel self) _ _ _ _)
    as [[sub_plans ds] s3| |] eqn:Hloop.
  - rewrite for_sub_plans_agree with (solve := Agent.solve_dynamically_run fuel self);
      [by rewrite Hloop | by auto | by rewrite Hloop].
  - rewrite for_sub_plans_agree with (solve := Agent.solve_dynamically_run fuel self);
      [by rewrite Hloop | by auto | by rewrite Hloop].
  - done.
Qed.

Lemma solve_dynamically_run_fuel_le n m self problem planner other_results s :
  n ≤ m →
  Agent.solve_dynamically_run n self problem planner other_results s ≠ OutOfFuel →
  Agent.solve_dynamically_run m self problem planner other_results s
  = Agent.solve_dynamically_run n self problem planner other_results s.
Proof.
  induction 1 as [|m Hle IH]; [done|]. intros Hn.
  rewrite solve_dynamically_run_more_fuel; [by apply IH|]. by rewrite IH.
Qed.

(** The loop ends when the recursive calls it makes do. *)
Lemma for_sub_plans_ends solve sub_planner sub_results sub_plans s :
  (∀ a s, solve a (Some sub_planner) (Some sub_results) s ≠ OutOfFuel) →
  Agent.for_sub_plans solve sub_planner sub_results sub_plans s ≠ OutOfFuel.
Proof.
  intros Hends. revert s.
  induction sub_plans as [|sub_plan rest IH]; intros s; [done|].
  rewrite for_sub_plans_cons.
  destruct (solve _ _ _ s) as [r s1| |] eqn:Hcall; [|done|by apply Hends in Hcall].
  cbn zeta.
  destruct (Agent.for_sub_plans _ _ _ _ _) as [[rest' ds] s2| |] eqn:Hrest;
    [done|done|by apply IH in Hrest].
Qed.

(** A truthy planner argument is the active planner of the call. *)
Lemma planner_or_truthy (p : Planner) (fallback : option Planner) :
  APlanner.truth p = true → Agent.planner_or (Some p) fallback = Some p.
Proof. intros Hp. unfold Agent.planner_or. by rewrite Hp. Qed.

Lemma int_truth_true (n : Z) : int_truth n = true ↔ n ≠ 0%Z.
Proof. unfold int_truth. destruct (Z.eqb_spec n 0); naive_solver. Qed.

(** With truthy derived planners and a non-negative budget, fuel above the
    budget is never used up. *)
Lemma solve_dynamically_run_ends n self problem planner other_results s p :
  (∀ q : Planner, APlanner.truth (APlanner.one_fewer_level_deep q) = true) →
  Agent.planner_or planner (Agent.planner self) = Some p →
  (0 ≤ APlanner.max_depth p < Z.of_nat n)%Z →
  Agent.solve_dynamically_run n self problem planner other_results s ≠ OutOfFuel.
Proof.
  intros Htruth. revert problem planner other_results s p.
  induction n as [|n IH]; intros problem planner other_results s p Hp Hdepth; [lia|].
  rewrite solve_dynamically_run_S.
  case_reason; [done|].
  cbn zeta. destruct (TaskStatus_eqb _ _); [|done].
  rewrite Hp. destruct (int_truth _) eqn:Hgo; [|done].
  apply int_truth_true in Hgo.
  rewrite !bind_eq. cbn [new_list].
  rewrite !bind_eq. destruct (invoke _ _) as [plan_1 s2| |] eqn:Hplan; [|done|].
  - rewrite !bind_eq.
    destruct (Agent.for_sub_plans _ _ _ _ _) as [[sub_plans ds] s3| |] eqn:Hloop.
    + rewrite bind_eq, contents_opt_eq, bind_eq, invoke_eq.
      by destruct (APlan.execute _ _ _ _ _) as [msg|[answer w']].
    + done.
    + exfalso. revert Hloop. apply for_sub_plans_ends. intros a s'.
      apply (IH _ _ _ _ (APlanner.one_fewer_level_deep p)).
      * by apply planner_or_truthy.
      * rewrite APlanner.one_fewer_level_deep_max_depth. lia.
  - by apply invoke_ends in Hplan.
Qed.

(** *** The store of list objects *)

(** A call only appends to the list it has created itself: the lists that
    existed when it started are the same when it returns. *)
Lemma alter_beyond_prefix (L ls : list (list AskAnsPair)) f l :
  L `prefix_of` ls → length L ≤ l → L `prefix_of` alter f l ls.
Proof.
  intros [k ->] Hl. rewrite alter_app_r_alt by done. by eexists.
Qed.

Lemma for_sub_plans_frame solve sub_planner sub_results sub_plans s L out s' :
  (∀ a p o s r s', solve a p o s = Returns r s' → lists s `prefix_of` lists s') →
  L `prefix_of` lists s → length L ≤ sub_results →
  Agent.for_sub_plans solve sub_planner sub_results sub_plans s = Returns out s' →
  L `prefix_of` lists s'.
Proof.
  intros Hsolve. revert s out.
  induction sub_plans as [|sub_plan rest IH]; intros s out HL Hlen.
  { by intros [= _ <-]. }
  rewrite for_sub_plans_cons.
  destruct (solve _ _ _ s) as [r s1| |] eqn:Hcall; [|done..]. cbn zeta.
  destruct (Agent.for_sub_plans _ _ _ _ _) as [[rest' ds] s2| |] eqn:Hrest; [|done..].
  intros [= _ <-]. eapply IH; [| done | exact Hrest].
  cbn [lists]. apply alter_beyond_prefix; [|done].
  etrans; [exact HL|]. by eapply Hsolve.
Qed.

Lemma solve_dynamically_run_frame fuel self problem planner other_results s r s' :
  Agent.solve_dynamically_run fuel self problem planner other_results s = Returns r s' →
  lists s `prefix_of` lists s'.
Proof.
  revert problem planner other_results s r s'.
  induction fuel as [|fuel IH]; intros problem planner other_results s r s'; [done|].
  rewrite solve_dynamically_run_S.
  case_reason; [done|].
  cbn zeta. destruct (TaskStatus_eqb _ _); [|by intros [= _ <-]].
  destruct (Agent.planner_or _ _) as [p|]; [|done].
  destruct (int_truth _); [|by intros [= _ <-]].
  intros (sub_results & s1 & [= <- <-] & Hrun)%bind_returns.
  apply bind_returns in Hrun as (plan_1 & s2 & (w2 & _ & ->)%invoke_returns & Hrun).
  apply bind_returns in Hrun as ([sub_plans ds] & s3 & Hloop & Hrun).
  rewrite bind_eq, contents_opt_eq in Hrun.
  apply bind_returns in Hrun as (answer & s4 & (w4 & _ & ->)%invoke_returns & [= _ <-]).
  cbn [lists]. eapply for_sub_plans_frame in Hloop; [exact Hloop | exact IH | | done].
  cbn [lists]. by apply prefix_app_r.
Qed.

(** *** The exceptions of a dynamic solve *)

Lemma for_sub_plans_raises solve sub_planner sub_results sub_plans s e :
  (∀ a p o s e, solve a p o s = Raises e → own_or_upstream e) →
  Agent.for_sub_plans solve sub_planner sub_results sub_plans s = Raises e →
  own_or_upstream e.
Proof.
  intros Hsolve. revert s.
  induction sub_plans as [|sub_plan rest IH]; intros s; [done|].
  rewrite for_sub_plans_cons.
  destruct (solve _ _ _ s) as [r s1|e'|] eqn:Hcall; [| |done].
  - cbn zeta.
    destruct (Agent.for_sub_plans _ _ _ _ _) as [[rest' ds] s2|e'|] eqn:Hrest; [done| |done].
    intros [= <-]. by eapply IH.
  - intros [= <-]. by eapply Hsolve.
Qed.

Lemma solve_dynamically_run_raises fuel self problem planner other_results s e :
  Agent.solve_dynamically_run fuel self problem planner other_results s = Raises e →
  own_or_upstream e.
Proof.
  revert problem planner other_results s e.
  induction fuel as [|fuel IH]; intros problem planner other_results s e; [done|].
  rewrite solve_dynamically_run_S.
  case_reason.
  { intros [= <-]. right. eauto. }
  cbn zeta. destruct (TaskStatus_eqb _ _); [|done].
  destruct (Agent.planner_or _ _) as [p|]; [|by intros [= <-]; left].
  destruct (int_truth _); [|done].
  rewrite bind_eq. cbn [new_list]. rewrite bind_eq, invoke_eq.
  destruct (APlanner.plan _ _ _ _ _) as [msg|[plan_1 w2]].
  { intros [= <-]. right. eauto. }
  rewrite bind_eq.
  destruct (Agent.for_sub_plans _ _ _ _ _) as [[sub_plans ds] s3|e'|] eqn:Hloop; [| |done].
  - rewrite bind_eq, contents_opt_eq, bind_eq, invoke_eq.
    destruct (APlan.execute _ _ _ _ _) as [msg|[answer w4]]; [|done].
    intros [= <-]. right. eauto.
  - intros [= <-]. eapply for_sub_plans_raises; [|exact Hloop]. exact IH.
Qed.

(** *** The loop over the sub-plans *)

(** What the loop leaves behind, for any recursive call that keeps the
    existing lists as they are. *)
Lemma for_sub_plans_spec solve sub_planner sub_results sub_plans s acc sub_plans' ds s' :
  (∀ a p o s r s', solve a p o s = Returns r s' → lists s `prefix_of` lists s') →
  lists s !! sub_results = Some acc →
  Agent.for_sub_plans solve sub_planner sub_results sub_plans s
    = Returns (sub_plans', ds) s' →
  lists s' !! sub_results = Some (acc ++ map pair_of ds)
  ∧ map Agent.sub_problem ds = map (λ p, Task.ask (Plan.task p)) sub_plans
  ∧ sub_plans' = zip_with (λ p d, resolve_with d p) sub_plans ds
  ∧ sibling_context acc ds
  ∧ Forall (λ d, Agent.sub_planner_arg d = Some sub_planner
                 ∧ Agent.other_results_arg d = Some sub_results) ds
  ∧ Forall (resolved_by solve sub_results) ds.
Proof.
  intros Hsolve. revert s acc sub_plans' ds.
  induction sub_plans as [|sub_plan rest IH]; intros s acc sub_plans' ds Hacc.
  { intros [= <- <- <-]. cbn. rewrite app_nil_r. by repeat split. }
  rewrite for_sub_plans_cons.
  destruct (solve _ _ _ s) as [r s1| |] eqn:Hcall; [|done..]. cbn zeta.
  destruct (Agent.for_sub_plans _ _ _ _ _) as [[rest' ds'] s2| |] eqn:Hrest; [|done..].
  intros [= <- <- <-]. rewrite Hacc in *. cbn [default from_option id] in *.
  set (d := Agent.descent _ _ _ acc _) in *.
  assert (lists s1 !! sub_results = Some acc) as Hacc1.
  { eapply prefix_lookup_Some; [exact Hacc|]. by eapply Hsolve. }
  apply IH with (acc := acc ++ [pair_of d]) in Hrest as (Hend & Hasks & -> & Hctx & Hargs & Hcalls).
  2:{ cbn [lists]. by rewrite list_lookup_alter_eq, Hacc1. }
  split_and!.
  - by rewrite Hend, <-app_assoc.
  - cbn. by rewrite Hasks.
  - done.
  - by split.
  - by constructor.
  - constructor; [|done]. by exists s, r, s1.
Qed.

(** The loop as [solve_dynamically] runs it: over a list it has just created,
    with itself as the recursive call. *)
Lemma for_sub_plans_fresh fuel self sub_planner (ls : list (list AskAnsPair)) w
    sub_plans sub_plans' ds s' :
  Agent.for_sub_plans (Agent.solve_dynamically_run fuel self) sub_planner (length ls)
                      sub_plans (State w (ls ++ [[]]))
    = Returns (sub_plans', ds) s' →
  ls `prefix_of` lists s'
  ∧ map Agent.sub_problem ds = map (λ p, Task.ask (Plan.task p)) sub_plans
  ∧ sub_plans' = zip_with (λ p d, resolve_with d p) sub_plans ds
  ∧ sibling_context [] ds
  ∧ Forall (λ d, Agent.sub_planner_arg d = Some sub_planner
                 ∧ Agent.other_results_arg d = Some (length ls)) ds
  ∧ Forall (resolved_by (Agent.solve_dynamically_run fuel self) (length ls)) ds.
Proof.
  intros Hloop.
  assert (∀ a p o s r s',
            Agent.solve_dynamically_run fuel self a p o s = Returns r s' →
            lists s `prefix_of` lists s') as Hframe.
  { intros a p o s r s0. apply solve_dynamically_run_frame. }
  split.
  - eapply for_sub_plans_frame; [exact Hframe| |reflexivity|exact Hloop].
    cbn [lists]. by apply prefix_app_r.
  - eapply for_sub_plans_spec with (acc := []) in Hloop as (_ & Hrest); [done..|].
    cbn [lists]. by rewrite lookup_app_r, Nat.sub_diag.
Qed.

(** *** The two ways a call returns *)

Lemma TaskStatus_eqb_eq (a b : TaskStatus) : TaskStatus_eqb a b = true ↔ a = b.
Proof. destruct a, b; naive_solver. Qed.

(** A call that returns either took the Reasoner's answer as it was, or went
    through the whole decomposition. *)
Lemma solve_dynamically_run_returns fuel self problem planner other_results s r s' :
  Agent.solve_dynamically_run fuel self problem planner other_results s = Returns r s' →
  ∃ fuel' text status result w1,
    fuel = S fuel'
    ∧ AReasoner.reason (Agent.reasoner self) (Task.new problem (Agent.resources self))
                       (Agent.knowledge self) (world s)
      = inr ((text, (status, result)), w1)
    ∧ ((r = reasoned problem (Agent.resources self) status result
        ∧ s' = State w1 (lists s)
        ∧ (status ≠ NEEDING_DECOMPOSITION
           ∨ ∃ p, Agent.planner_or planner (Agent.planner self) = Some p
                  ∧ APlanner.max_depth p = 0%Z))
       ∨ (∃ p plan_1 w2 sub_plans s3 answer w4,
            status = NEEDING_DECOMPOSITION
            ∧ Agent.planner_or planner (Agent.planner self) = Some p
            ∧ APlanner.max_depth p ≠ 0%Z
            ∧ APlanner.plan (APlanner.one_level_deep p) problem
                            (Agent.resources self) None w1 = inr (plan_1, w2)
            ∧ Agent.for_sub_plans (Agent.solve_dynamically_run fuel' self)
                (APlanner.one_fewer_level_deep p) (length (lists s))
                (Plan.sub_plans plan_1) (State w2 (lists s ++ [[]]))
              = Returns (sub_plans, Agent.descents r) s3
            ∧ APlan.execute (Plan.with_sub_plans sub_plans plan_1) (Agent.reasoner self)
                            (siblings_in s3 other_results) (Agent.knowledge self) (world s3)
              = inr (answer, w4)
            ∧ s' = State w4 (lists s3)
            ∧ r = Agent.run (Some answer)
                    (Task.mk problem (Agent.resources self) DONE (Some answer))
                    (Some plan_1) (Agent.descents r)
                    (Some (Plan.with_sub_plans sub_plans plan_1,
                           siblings_in s3 other_results)))).
Proof.
  destruct fuel as [|fuel']; [done|].
  rewrite solve_dynamically_run_S.
  destruct (AReasoner.reason _ _ _ _) as [msg|[[text [status result]] w1]] eqn:Hreason;
    [done|].
  cbn zeta. intros Hrun. exists fuel', text, status, result, w1.
  split; [done|]. split; [done|].
  destruct (TaskStatus_eqb _ _) eqn:Hstatus.
  2:{ injection Hrun as <- <-. left. split_and!; [done..|].
      left. intros ->. discriminate Hstatus. }
  apply TaskStatus_eqb_eq in Hstatus as ->.
  destruct (Agent.planner_or _ _) as [p|]; [|done].
  destruct (int_truth _) eqn:Hgo.
  2:{ injection Hrun as <- <-. left. split_and!; [done..|].
      right. exists p. split; [done|].
      destruct (Z.eq_dec (APlanner.max_depth p) 0%Z) as [|Hne]; [done|].
      apply int_truth_true in Hne. congruence. }
  apply int_truth_true in Hgo. right.
  apply bind_returns in Hrun as (sub_results & s1 & [= <- <-] & Hrun).
  apply bind_returns in Hrun as (plan_1 & s2 & (w2 & Hplan & ->)%invoke_returns & Hrun).
  apply bind_returns in Hrun as ([sub_plans ds] & s3 & Hloop & Hrun).
  rewrite bind_eq, contents_opt_eq in Hrun.
  apply bind_returns in Hrun as (answer & s4 & (w4 & Hexec & ->)%invoke_returns & [= <- <-]).
  by exists p, plan_1, w2, sub_plans, s3, answer, w4.
Qed.

(** *** Depth *)

(** The recursive calls of a call: each was handed the planner that
    [one_fewer_level_deep] derived from the caller's active planner. *)
Lemma solve_dynamically_run_descents fuel self problem planner other_results s r s' :
  Agent.solve_dynamically_run fuel self problem planner other_results s = Returns r s' →
  Agent.descents r = []
  ∨ ∃ p, Agent.planner_or planner (Agent.planner self) = Some p
         ∧ APlanner.max_depth p ≠ 0%Z
         ∧ Forall (λ d, Agent.sub_planner_arg d = Some (APlanner.one_fewer_level_deep p))
                  (Agent.descents r).
Proof.
  intros (fuel' & text & status & result & w1 & -> & Hreason & Hrun)%solve_dynamically_run_returns.
  destruct Hrun as [(-> & _)|(p & plan_1 & w2 & sub_plans & s3 & answer & w4 & _ & Hp
                             & Hgo & _ & Hloop & _)]; [by left|right].
  exists p. split_and!; [done..|].
  apply for_sub_plans_fresh in Hloop as (_ & _ & _ & _ & Hargs & _).
  eapply Forall_impl; [exact Hargs|]. by intros d [? _].
Qed.

(** C1 (amended).  Take an agent whose derived planners are truthy objects and
    a call whose active planner [p] has [max_depth p >= 0].  Then, whatever the
    Reasoner and the Planner do (so also when every task is left
    [NEEDING_DECOMPOSITION]): the call ends within [max_depth p] levels of
    decomposition below it (fuel [1 + max_depth p] is never used up, and more
    fuel changes nothing); and every recursive call it makes is handed, and
    uses as its active planner, [one_fewer_level_deep p], whose [max_depth] is
    exactly [max_depth p - 1] and still non-negative. *)
Theorem solve_dynamically_depth_bounded self problem planner other_results s p :
  (∀ q : Planner, APlanner.truth (APlanner.one_fewer_level_deep q) = true) →
  Agent.planner_or planner (Agent.planner self) = Some p →
  (0 ≤ APlanner.max_depth p)%Z →
  Agent.solve_dynamically_run (S (Z.to_nat (APlanner.max_depth p)))
                              self problem planner other_results s ≠ OutOfFuel
  ∧ (∀ fuel, S (Z.to_nat (APlanner.max_depth p)) ≤ fuel →
       Agent.solve_dynamically_run fuel self problem planner other_results s
       = Agent.solve_dynamically_run (S (Z.to_nat (APlanner.max_depth p)))
                                     self problem planner other_results s)
  ∧ (∀ fuel r s',
       Agent.solve_dynamically_run fuel self problem planner other_results s
         = Returns r s' →
       Forall (λ d,
                 Agent.sub_planner_arg d = Some (APlanner.one_fewer_level_deep p)
                 ∧ Agent.planner_or (Agent.sub_planner_arg d) (Agent.planner self)
                   = Some (APlanner.one_fewer_level_deep p)
                 ∧ APlanner.max_depth (APlanner.one_fewer_level_deep p)
                   = (APlanner.max_depth p - 1)%Z
                 ∧ (0 ≤ APlanner.max_depth (APlanner.one_fewer_level_deep p))%Z)
              (Agent.descents r)).
Proof.
  intros Htruth Hp Hdepth.
  assert (Agent.solve_dynamically_run (S (Z.to_nat (APlanner.max_depth p)))
            self problem planner other_results s ≠ OutOfFuel) as Hends.
  { eapply solve_dynamically_run_ends; [done..|lia]. }
  split_and!.
  - done.
  - intros fuel Hle. by apply solve_dynamically_run_fuel_le.
  - intros fuel r s' Hrun.
    apply solve_dynamically_run_descents in Hrun as [->|(p' & Hp' & Hgo & Hargs)]; [done|].
    assert (p' = p) as -> by congruence.
    eapply Forall_impl; [exact Hargs|]. intros d Hd. rewrite Hd. split_and!.
    + done.
    + by apply planner_or_truthy.
    + apply APlanner.one_fewer_level_deep_max_depth.
    + rewrite APlanner.one_fewer_level_deep_max_depth. lia.
Qed.

(** *** Status *)

(** C2 (amended).  When a call of [solve_dynamically] returns, its task is
    [DONE] if the call decomposed (the Reasoner left [NEEDING_DECOMPOSITION]
    and the active planner's [max_depth] is not 0), and otherwise has exactly
    the status the Reasoner left on it.  So it is [RESOLVED] or [DONE] when
    the Reasoner resolved the task or the call decomposed, and it stays
    [NEEDING_DECOMPOSITION] when the Reasoner left that and [max_depth] is 0. *)
Theorem solve_dynamically_final_status
    fuel self problem planner other_results s r s' text status result w :
  Agent.solve_dynamically_run fuel self problem planner other_results s = Returns r s' →
  AReasoner.reason (Agent.reasoner self) (Task.new problem (Agent.resources self))
                   (Agent.knowledge self) (world s)
    = inr ((text, (status, result)), w) →
  Task.status (Agent.final_task r)
    = (if decomposes status (Agent.planner_or planner (Agent.planner self))
       then DONE else status)
  ∧ (status = RESOLVED
     ∨ decomposes status (Agent.planner_or planner (Agent.planner self)) = true →
     Task.status (Agent.final_task r) = RESOLVED
     ∨ Task.status (Agent.final_task r) = DONE)
  ∧ (status = NEEDING_DECOMPOSITION →
     decomposes status (Agent.planner_or planner (Agent.planner self)) = false →
     Task.status (Agent.final_task r) = NEEDING_DECOMPOSITION).
Proof.
  intros (fuel' & text' & status' & result' & w1 & -> & Hreason & Hrun)%solve_dynamically_run_returns
         Hreason'.
  rewrite Hreason' in Hreason. injection Hreason as <- <- <- <-.
  assert (Task.status (Agent.final_task r)
          = (if decomposes status (Agent.planner_or planner (Agent.planner self))
             then DONE else status)) as Hstatus.
  { unfold decomposes.
    destruct Hrun as [(-> & _ & [Hne|(p & -> & ->)])
                     |(p & plan_1 & w2 & sub_plans & s3 & answer & w4 & -> & -> & Hgo
                         & _ & _ & _ & _ & ->)].
    - cbn. destruct (TaskStatus_eqb _ _) eqn:Heq; [|done].
      by apply TaskStatus_eqb_eq in Heq.
    - cbn. by rewrite andb_false_r.
    - apply int_truth_true in Hgo. cbn. by rewrite Hgo. }
  split_and!.
  - done.
  - rewrite Hstatus. intros [-> | ->]; [|by right].
    destruct (decomposes _ _); [by right|by left].
  - rewrite Hstatus. by intros -> ->.
Qed.

(** *** Sibling context and synthesis *)

(** The loop of a call that decomposed, in full. *)
Lemma solve_dynamically_run_siblings
    fuel self problem planner other_results s r s' plan_1 :
  Agent.solve_dynamically_run fuel self problem planner other_results s = Returns r s' →
  Agent.decomposition r = Some plan_1 →
  ∃ fuel' p,
    fuel = S fuel'
    ∧ Agent.planner_or planner (Agent.planner self) = Some p
    ∧ map Agent.sub_problem (Agent.descents r)
      = map (λ sub_plan, Task.ask (Plan.task sub_plan)) (Plan.sub_plans plan_1)
    ∧ sibling_context [] (Agent.descents r)
    ∧ Forall (λ d, Agent.sub_planner_arg d = Some (APlanner.one_fewer_level_deep p)
                   ∧ Agent.other_results_arg d = Some (length (lists s)))
             (Agent.descents r)
    ∧ Forall (resolved_by (Agent.solve_dynamically_run fuel' self) (length (lists s)))
             (Agent.descents r)
    ∧ fst <$> Agent.executed r
      = Some (Plan.with_sub_plans
                (zip_with (λ sub_plan d, resolve_with d sub_plan)
                          (Plan.sub_plans plan_1) (Agent.descents r))
                plan_1).
Proof.
  intros (fuel' & text & status & result & w1 & -> & Hreason & Hrun)%solve_dynamically_run_returns
         Hplan.
  destruct Hrun as [(-> & _)|(p & plan_1' & w2 & sub_plans & s3 & answer & w4 & _ & Hp
                             & Hgo & _ & Hloop & _ & _ & Hr)]; [done|].
  rewrite Hr in Hplan. injection Hplan as ->.
  apply for_sub_plans_fresh in Hloop as (_ & Hasks & -> & Hctx & Hargs & Hcalls).
  exists fuel', p. split_and!; [done..|]. by rewrite Hr.
Qed.

(** C3.  When a call decomposes its problem into the sub-plans [A; B; C], it
    makes three recursive calls, on the questions of A, B and C in that order,
    all with the list object [sub_results] as [other_results].  When the call
    for A starts that list is empty; when the call for B starts (and still when
    it returns) the list holds exactly A's pair; for C it holds A's pair and then
    B's.  Each pair is the sub-task's question with the value its recursive
    call returned, and in the plan handed to [execute] each sub-task carries
    that value as its result, with status [DONE]. *)
Theorem solve_dynamically_sibling_context
    fuel self problem planner other_results s r s' plan_1 A B C :
  Agent.solve_dynamically_run fuel self problem planner other_results s = Returns r s' →
  Agent.decomposition r = Some plan_1 →
  Plan.sub_plans plan_1 = [A; B; C] →
  ∃ fuel' p sub_results rA rB rC,
    let sub_planner := APlanner.one_fewer_level_deep p in
    let askA := Task.ask (Plan.task A) in
    let askB := Task.ask (Plan.task B) in
    let askC := Task.ask (Plan.task C) in
    let dA := Agent.descent askA (Some sub_planner) (Some sub_results) [] rA in
    let dB := Agent.descent askB (Some sub_planner) (Some sub_results)
                            [(askA, rA)] rB in
    let dC := Agent.descent askC (Some sub_planner) (Some sub_results)
                            [(askA, rA); (askB, rB)] rC in
    fuel = S fuel'
    ∧ Agent.planner_or planner (Agent.planner self) = Some p
    ∧ Agent.descents r = [dA; dB; dC]
    ∧ Forall (resolved_by (Agent.solve_dynamically_run fuel' self) sub_results)
             [dA; dB; dC]
    ∧ fst <$> Agent.executed r
      = Some (Plan.mk (Plan.task plan_1)
                [Plan.mk (Task.mk askA (Task.resources (Plan.task A)) DONE rA)
                         (Plan.sub_plans A);
                 Plan.mk (Task.mk askB (Task.resources (Plan.task B)) DONE rB)
                         (Plan.sub_plans B);
                 Plan.mk (Task.mk askC (Task.resources (Plan.task C)) DONE rC)
                         (Plan.sub_plans C)]).
Proof.
  intros Hrun Hplan HABC.
  destruct (solve_dynamically_run_siblings _ _ _ _ _ _ _ _ _ Hrun Hplan)
    as (fuel' & p & -> & Hp & Hasks & Hctx & Hargs & Hcalls & Hexec).
  rewrite HABC in Hasks, Hexec.
  destruct (Agent.descents r) as [|[a1 p1 o1 v1 r1] [|[a2 p2 o2 v2 r2]
             [|[a3 p3 o3 v3 r3] [|d4 ds]]]]; try discriminate Hasks.
  cbn in Hasks, Hctx, Hargs, Hexec.
  injection Hasks as -> -> ->.
  destruct Hctx as (-> & -> & -> & _).
  apply Forall_cons in Hargs as [[[= ->] [= ->]] Hargs].
  apply Forall_cons in Hargs as [[[= ->] [= ->]] Hargs].
  apply Forall_cons in Hargs as [[[= ->] [= ->]] _].
  exists fuel', p, (length (lists s)), r1, r2, r3. cbn zeta.
  by split_and!.
Qed.

Lemma siblings_in_prefix s s' (other_results : option nat) :
  lists s `prefix_of` lists s' →
  (∀ l, other_results = Some l → l < length (lists s)) →
  siblings_in s' other_results = siblings_in s other_results.
Proof.
  intros Hprefix Hvalid. destruct other_results as [l|]; [|done].
  unfold siblings_in. f_equal. f_equal. symmetry. apply prefix_lookup_lt; [|done].
  by apply Hvalid.
Qed.

(** C7 (amended).  When a call decomposes, the loop over the sub-plans of the
    Planner's one-level plan runs to its end first: every sub-plan has had its
    recursive call, that call has returned, and the sub-plan carries the value
    returned as its result, with status [DONE].  Only then, in the world the
    loop left, the call runs [execute] on the one-level plan with these
    resolved sub-plans, with [other_results] being what the caller passed: the
    elements of the caller's list as they were when the call started, or
    [None] when the caller passed nothing, which is how [solve] makes the
    top-level call.  The task's result is what [execute] returned, its status
    is [DONE], and the call returns that result. *)
Theorem solve_dynamically_synthesis
    fuel self problem planner other_results s r s' plan_1 :
  Agent.solve_dynamically_run fuel self problem planner other_results s = Returns r s' →
  Agent.decomposition r = Some plan_1 →
  (∀ l, other_results = Some l → l < length (lists s)) →
  ∃ fuel' p text result w1 w2 s3 answer,
    let sub_results := length (lists s) in
    let resolved := zip_with (λ sub_plan d, resolve_with d sub_plan)
                             (Plan.sub_plans plan_1) (Agent.descents r) in
    fuel = S fuel'
    ∧ AReasoner.reason (Agent.reasoner self) (Task.new problem (Agent.resources self))
                       (Agent.knowledge self) (world s)
      = inr ((text, (NEEDING_DECOMPOSITION, result)), w1)
    ∧ Agent.planner_or planner (Agent.planner self) = Some p
    ∧ APlanner.plan (APlanner.one_level_deep p) problem (Agent.resources self) None w1
      = inr (plan_1, w2)
    ∧ Agent.for_sub_plans (Agent.solve_dynamically_run fuel' self)
        (APlanner.one_fewer_level_deep p) sub_results (Plan.sub_plans plan_1)
        (State w2 (lists s ++ [[]]))
      = Returns (resolved, Agent.descents r) s3
    ∧ length (Agent.descents r) = length (Plan.sub_plans plan_1)
    ∧ Forall (resolved_by (Agent.solve_dynamically_run fuel' self) sub_results)
             (Agent.descents r)
    ∧ length resolved = length (Plan.sub_plans plan_1)
    ∧ (∀ i sub_plan,
         resolved !! i = Some sub_plan →
         ∃ original d,
           Plan.sub_plans plan_1 !! i = Some original
           ∧ Agent.descents r !! i = Some d
           ∧ Agent.sub_problem d = Task.ask (Plan.task original)
           ∧ Plan.task sub_plan
             = Task.mk (Task.ask (Plan.task original))
                       (Task.resources (Plan.task original)) DONE (Agent.sub_result d)
           ∧ Plan.sub_plans sub_plan = Plan.sub_plans original)
    ∧ Agent.executed r
      = Some (Plan.with_sub_plans resolved plan_1, siblings_in s other_results)
    ∧ APlan.execute (Plan.with_sub_plans resolved plan_1) (Agent.reasoner self)
                    (siblings_in s other_results) (Agent.knowledge self) (world s3)
      = inr (answer, world s')
    ∧ Agent.final_task r = Task.mk problem (Agent.resources self) DONE (Some answer)
    ∧ Agent.returned r = Some answer
    ∧ (other_results = None → snd <$> Agent.executed r = Some None).
Proof.
  intros Hrun Hplan Hvalid.
  pose proof Hrun as
    (fuel' & text & status & result & w1 & -> & Hreason & Hcases)%solve_dynamically_run_returns.
  destruct Hcases as [(-> & _)|(p & plan_1' & w2 & sub_plans & s3 & answer & w4 & -> & Hp
                             & Hgo & Hplanned & Hloop & Hexec & -> & Hr)]; [done|].
  rewrite Hr in Hplan. injection Hplan as ->.
  pose proof (for_sub_plans_fresh _ _ _ _ _ _ _ _ _ Hloop)
    as (Hframe & Hasks & -> & _ & _ & Hcalls).
  rewrite (siblings_in_prefix s s3) in Hexec, Hr by done.
  assert (length (Agent.descents r) = length (Plan.sub_plans plan_1)) as Hlength.
  { apply (f_equal length) in Hasks. by rewrite !length_map in Hasks. }
  exists fuel', p, text, result, w1, w2, s3, answer. cbn zeta.
  split_and!; [done..| | | | | | |].
  - rewrite length_zip_with. lia.
  - intros i sub_plan (original & d & -> & Horiginal & Hd)%lookup_zip_with_Some.
    exists original, d. split_and!; [done..| | |].
    + change (Agent.sub_problem <$> Agent.descents r
              = (Task.ask ∘ Plan.task) <$> Plan.sub_plans plan_1) in Hasks.
      apply (f_equal (.!! i)) in Hasks.
      rewrite !list_lookup_fmap, Hd, Horiginal in Hasks. by injection Hasks.
    + by destruct original as [[ask resources status result'] subs].
    + by destruct original.
  - by rewrite Hr.
  - done.
  - by rewrite Hr.
  - by rewrite Hr.
  - intros ->. by rewrite Hr.
Qed.

(** *** Direct answers *)

Lemma solve_dynamically_eq fuel self problem planner other_results s :
  Agent.solve_dynamically fuel self problem planner other_results s =
  match Agent.solve_dynamically_run fuel self problem planner other_results s with
  | Returns r s' => Returns (Agent.returned r) s'
  | Raises e => Raises e
  | OutOfFuel => OutOfFuel
  end.
Proof. reflexivity. Qed.

(** C5.  When the active planner's [max_depth] is 0, a call of
    [solve_dynamically] is the Reasoner's call and nothing else, whatever
    status the Reasoner leaves on the task: no plan is asked for, no recursive
    call is made, nothing is executed, and the value returned is the result
    the Reasoner left on the task. *)
Theorem solve_dynamically_depth_zero fuel self problem planner other_results s p :
  Agent.planner_or planner (Agent.planner self) = Some p →
  APlanner.max_depth p = 0%Z →
  Agent.solve_dynamically_run (S fuel) self problem planner other_results s
  = match AReasoner.reason (Agent.reasoner self) (Task.new problem (Agent.resources self))
                           (Agent.knowledge self) (world s) with
    | inl msg => Raises (UpstreamError msg)
    | inr ((_, (status, result)), w) =>
        Returns (Agent.run result (Task.mk problem (Agent.resources self) status result)
                           None [] None)
                (State w (lists s))
    end
  ∧ Agent.solve_dynamically (S fuel) self problem planner other_results s
    = match AReasoner.reason (Agent.reasoner self) (Task.new problem (Agent.resources self))
                             (Agent.knowledge self) (world s) with
      | inl msg => Raises (UpstreamError msg)
      | inr ((_, (_, result)), w) => Returns result (State w (lists s))
      end.
Proof.
  intros Hp Hzero.
  rewrite solve_dynamically_eq, solve_dynamically_run_S, Hp, Hzero.
  case_reason; [done|].
  cbn. by destruct (TaskStatus_eqb status NEEDING_DECOMPOSITION).
Qed.

(** C9.  On an agent without a planner, [solve_dynamically] called without a
    planner argument raises [AttributeError] when the Reasoner leaves
    [NEEDING_DECOMPOSITION] on the task ([max_depth] is read on [None]); for
    any other status it returns the result the Reasoner left. *)
Theorem solve_dynamically_without_planner fuel self problem other_results s :
  Agent.planner self = None →
  Agent.solve_dynamically (S fuel) self problem None other_results s
  = match AReasoner.reason (Agent.reasoner self) (Task.new problem (Agent.resources self))
                           (Agent.knowledge self) (world s) with
    | inl msg => Raises (UpstreamError msg)
    | inr ((_, (status, result)), w) =>
        if TaskStatus_eqb status NEEDING_DECOMPOSITION
        then Raises AttributeError
        else Returns result (State w (lists s))
    end.
Proof.
  intros Hnone.
  rewrite solve_dynamically_eq, solve_dynamically_run_S, Hnone.
  case_reason; [done|].
  cbn. by destruct (TaskStatus_eqb status NEEDING_DECOMPOSITION).
Qed.

(** *** Dispatch *)

(** C6.  Without a plan and without a planner, [solve] is one call of the
    Reasoner on a fresh [Task(ask=problem, resources=self.resources)] with the
    agent's knowledge, and returns the text of that call. *)
Theorem solve_no_plan_no_planner fuel self problem dynamic s :
  Agent.planner self = None →
  Agent.solve fuel self problem None dynamic s
  = match AReasoner.reason (Agent.reasoner self) (Task.new problem (Agent.resources self))
                           (Agent.knowledge self) (world s) with
    | inl msg => Raises (UpstreamError msg)
    | inr ((text, _), w) => Returns (Some text) (State w (lists s))
    end.
Proof.
  intros Hnone. unfold Agent.solve. rewrite Hnone. cbn [Agent.py_match].
  rewrite bind_eq, invoke_eq.
  by case_reason.
Qed.

(** C10.  The dispatch tests the planner's truth value, not its presence: with
    a planner object that is falsy and no explicit plan, [solve] raises
    [ValueError] for either value of [dynamic]. *)
Theorem solve_falsy_planner fuel self problem dynamic s p :
  Agent.planner self = Some p →
  APlanner.truth p = false →
  Agent.solve fuel self problem None dynamic s = Raises ValueError.
Proof.
  intros Hsome Hfalsy. unfold Agent.solve. rewrite Hsome.
  destruct dynamic; cbn; by rewrite Hfalsy.
Qed.

(** [solve] follows the dispatch table. *)
Lemma solve_perform fuel self problem plan dynamic s :
  Agent.solve fuel self problem plan dynamic s
  = perform fuel self problem (dispatch_table plan (Agent.planner self) dynamic) s.
Proof.
  unfold Agent.solve, dispatch_table.
  destruct plan as [plan|], (Agent.planner self) as [p|], dynamic; cbn;
    try destruct (APlan.truth plan); try destruct (APlanner.truth p); reflexivity.
Qed.

Lemma invoke_raises {A} (c : call World A) s e :
  invoke c s = Raises e → ∃ msg, e = UpstreamError msg.
Proof.
  rewrite invoke_eq. destruct (c (world s)) as [msg|[a w]]; [|done].
  intros [= <-]. eauto.
Qed.

Lemma bind_raises {A B} (f : A → M World B) (m : M World A) s e :
  (m ≫= f) s = Raises e →
  m s = Raises e ∨ ∃ a s1, m s = Returns a s1 ∧ f a s1 = Raises e.
Proof.
  rewrite bind_eq. destruct (m s) as [a s1|e'|]; [eauto| |done].
  intros [= <-]. by left.
Qed.

(** A strategy of the table raises what it says, or what a dynamic solve or a
    collaborator raised. *)
Lemma perform_raises fuel self problem strategy s e :
  perform fuel self problem strategy s = Raises e →
  (strategy = FailNotImplemented ∧ e = NotImplementedError)
  ∨ (strategy = FailInvalidConfiguration ∧ e = ValueError)
  ∨ (strategy ≠ FailNotImplemented ∧ strategy ≠ FailInvalidConfiguration
     ∧ own_or_upstream e).
Proof.
  assert (∀ plan s e,
            (invoke (APlan.execute plan (Agent.reasoner self) None (Agent.knowledge self))
               ≫= λ text, mret (Some text)) s = Raises e → own_or_upstream e) as Hexecute.
  { intros plan s0 e0 [Hraise|(a & s1 & _ & Hraise)]%bind_raises; [|done].
    right. by eapply invoke_raises. }
  destruct strategy as [|p| |plan|p plan| |]; cbn [perform].
  - intros [Hraise|([text sr] & s1 & _ & Hraise)]%bind_raises; [|done].
    do 2 right. split_and!; [done..|]. right. by eapply invoke_raises.
  - intros [Hraise|(a & s1 & _ & Hraise)]%bind_raises.
    + do 2 right. split_and!; [done..|]. right. by eapply invoke_raises.
    + do 2 right. split_and!; [done..|]. by eapply Hexecute.
  - rewrite solve_dynamically_eq.
    destruct (Agent.solve_dynamically_run _ _ _ _ _ _) as [r s1|e'|] eqn:Hrun; [done| |done].
    intros [= <-]. do 2 right. split_and!; [done..|].
    by eapply solve_dynamically_run_raises.
  - intros Hraise. do 2 right. split_and!; [done..|]. by eapply Hexecute.
  - intros [Hraise|(a & s1 & _ & Hraise)]%bind_raises.
    + do 2 right. split_and!; [done..|]. right. by eapply invoke_raises.
    + do 2 right. split_and!; [done..|]. by eapply Hexecute.
  - intros [= <-]. by left.
  - intros [= <-]. right. by left.
Qed.

Lemma dispatch_table_not_implemented (plan : option Plan.t) (planner : option Planner)
    (dynamic : bool) :
  dispatch_table plan planner dynamic = FailNotImplemented
  ↔ Agent.plan_truth plan = true ∧ Agent.planner_truth planner = true ∧ dynamic = true.
Proof.
  unfold dispatch_table, Agent.plan_truth, Agent.planner_truth.
  destruct plan as [plan|], planner as [p|], dynamic;
    try destruct (APlan.truth plan); try destruct (APlanner.truth p);
    cbn; intuition congruence.
Qed.

Lemma dispatch_table_invalid (plan : option Plan.t) (planner : option Planner)
    (dynamic : bool) :
  dispatch_table plan planner dynamic = FailInvalidConfiguration
  ↔ documented_row plan planner = false.
Proof.
  unfold dispatch_table, documented_row, usable.
  destruct plan as [plan|], planner as [p|], dynamic;
    try destruct (APlan.truth plan); try destruct (APlanner.truth p);
    cbn; intuition congruence.
Qed.

(** C4 (amended).  [solve] does what the dispatch table says, where a plan or
    planner counts as present when it is a truthy object.  It raises
    [NotImplementedError] exactly when the explicit plan and the agent's
    planner are both truthy and [dynamic] is true; it raises [ValueError]
    exactly on the combinations outside the six rows, those with a plan or a
    planner that is an object but falsy; and every combination is caught by a
    case: [result] is never unbound at the [return]. *)
Theorem solve_dispatch fuel self problem plan dynamic s :
  Agent.solve fuel self problem plan dynamic s
  = perform fuel self problem (dispatch_table plan (Agent.planner self) dynamic) s
  ∧ (Agent.solve fuel self problem plan dynamic s = Raises NotImplementedError
     ↔ Agent.plan_truth plan = true ∧ Agent.planner_truth (Agent.planner self) = true
       ∧ dynamic = true)
  ∧ (Agent.solve fuel self problem plan dynamic s = Raises ValueError
     ↔ documented_row plan (Agent.planner self) = false)
  ∧ Agent.solve fuel self problem plan dynamic s ≠ Raises UnboundLocalError.
Proof.
  rewrite solve_perform, <-dispatch_table_not_implemented, <-dispatch_table_invalid.
  split_and!.
  - done.
  - split.
    + intros [[? _]|[[_ [=]]|(_ & _ & [[=]|[? [=]]])]]%perform_raises. done.
    + by intros ->.
  - split.
    + intros [[_ [=]]|[[? _]|(_ & _ & [[=]|[? [=]]])]]%perform_raises. done.
    + by intros ->.
  - by intros [[_ [=]]|[[_ [=]]|(_ & _ & [[=]|[? [=]]])]]%perform_raises.
Qed.

(** *** Knowledge *)

(** C8 (the defect).  [add_knowledge] adds a string to the knowledge set, and
    raises [TypeError] for every other argument, a set of strings included:
    the test [isinstance(new_knowledge, set[str])] raises before
    [self.knowledge.update] can be reached, and so does it before the
    [ValueError] of the last branch. *)
Theorem add_knowledge_outcome self (new_knowledge : pyvalue) :
  Agent.add_knowledge self new_knowledge
  = match new_knowledge with
    | PyStr text => inr (Agent.with_knowledge ({[ text ]} ∪ Agent.knowledge self) self)
    | PySet _ | PyInt _ | PyList _ | PyNone => inl TypeError
    end.
Proof. destruct new_knowledge; reflexivity. Qed.

End Properties.

(** ** The deployment, run *)

(** With a negative budget every level decomposes again: no amount of fuel is
    enough. *)
Lemma Demo_negative_depth_out_of_fuel fuel self problem planner other_results s
    (p : Demo.planner) :
  Agent.reasoner self = Demo.always_decompose →
  Agent.planner_or planner (Agent.planner self) = Some p →
  (Demo.depth p < 0)%Z →
  Demo.decompose p = Demo.abc →
  Agent.solve_dynamically_run fuel self problem planner other_results s = OutOfFuel.
Proof.
  intros Hreasoner. revert problem planner other_results s p.
  induction fuel as [|fuel IH]; intros problem planner other_results s p Hp Hdepth Habc;
    [done|].
  rewrite solve_dynamically_run_S, Hreasoner, Hp. cbn [AReasoner.reason Demo.reasoner_ops].
  cbn zeta. unfold Demo.always_decompose at 1. cbn [TaskStatus_eqb].
  replace (int_truth (APlanner.max_depth p)) with true
    by (symmetry; apply int_truth_true; cbn; lia).
  rewrite bind_eq. cbn [new_list]. rewrite bind_eq, invoke_eq.
  cbn [APlanner.plan APlanner.one_level_deep Demo.planner_ops Demo.decompose].
  rewrite Habc. cbn [Demo.abc map]. rewrite bind_eq. cbn [Plan.sub_plans].
  rewrite for_sub_plans_cons.
  rewrite (IH _ _ _ _ (APlanner.one_fewer_level_deep p)); [done| |cbn; lia|done].
  by apply planner_or_truthy.
Qed.

(** C1, as stated, fails: a planner whose [max_depth] is -1 is truthy, so the
    agent decomposes, and so does every level below it (-2, -3, ...); the
    nesting of the recursive calls exceeds every bound (CPython ends it with a
    RecursionError, far below the promised depth). *)
Lemma solve_dynamically_negative_depth_never_ends :
  ¬ ∃ fuel,
      Agent.solve_dynamically_run fuel
        (Demo.agent (Some (Demo.planner_of (-1))) Demo.always_decompose)
        "X" None None Demo.start ≠ OutOfFuel.
Proof.
  intros [fuel Hends]. apply Hends.
  by apply (Demo_negative_depth_out_of_fuel _ _ _ _ _ _ (Demo.planner_of (-1))).
Qed.

Lemma solve_dynamically_depth_bounded_witness :
  (∀ q : Demo.planner, APlanner.truth (APlanner.one_fewer_level_deep q) = true)
  ∧ (0 ≤ APlanner.max_depth (Demo.planner_of 2))%Z
  ∧ Agent.solve_dynamically_run 3
      (Demo.agent (Some (Demo.planner_of 2)) Demo.always_decompose)
      "X" None None Demo.start ≠ OutOfFuel.
Proof.
  split; [intros q; reflexivity|]. split; [cbn; lia|].
  refine (proj1 (solve_dynamically_depth_bounded
                   (Demo.agent (Some (Demo.planner_of 2)) Demo.always_decompose)
                   "X" None None Demo.start (Demo.planner_of 2) _ _ _)).
  - intros q. reflexivity.
  - reflexivity.
  - cbn. lia.
Defined.

(** C2, as stated, fails: with [max_depth] 0 the task the Reasoner left
    [NEEDING_DECOMPOSITION] still has that status when the call returns. *)
Lemma solve_dynamically_status_stays_needing_decomposition :
  ∃ r s',
    Agent.solve_dynamically_run 1
      (Demo.agent (Some (Demo.planner_of 0)) Demo.always_decompose)
      "X" None None Demo.start = Returns r s'
    ∧ Task.status (Agent.final_task r) = NEEDING_DECOMPOSITION.
Proof. eexists _, _. split; [vm_compute; reflexivity|reflexivity]. Qed.

Lemma solve_dynamically_final_status_witness :
  ∃ r s',
    Agent.solve_dynamically_run 2
      (Demo.agent (Some (Demo.planner_of 1)) (Demo.decompose_only "X"))
      "X" None None Demo.start = Returns r s'
    ∧ Task.status (Agent.final_task r) = DONE.
Proof.
  destruct (Agent.solve_dynamically_run 2
              (Demo.agent (Some (Demo.planner_of 1)) (Demo.decompose_only "X"))
              "X" None None Demo.start) as [r s'| |] eqn:Hrun;
    [|vm_compute in Hrun; discriminate Hrun..].
  exists r, s'. split; [reflexivity|].
  exact (proj1 (solve_dynamically_final_status 2
                  (Demo.agent (Some (Demo.planner_of 1)) (Demo.decompose_only "X"))
                  "X" None None Demo.start r s' "re:X" NEEDING_DECOMPOSITION
                  (Some "re:X") 1 Hrun eq_refl)).
Defined.

Lemma solve_dynamically_sibling_context_witness :
  ∃ r s' rA rB,
    Agent.solve_dynamically_run 2
      (Demo.agent (Some (Demo.planner_of 1)) (Demo.decompose_only "X"))
      "X" None None Demo.start = Returns r s'
    ∧ Agent.decomposition r
      = Some (Plan.mk (Task.new "X" ∅) [Demo.leaf "Xa"; Demo.leaf "Xb"; Demo.leaf "Xc"])
    ∧ map Agent.visible (Agent.descents r)
      = [ []; [("Xa", rA)]; [("Xa", rA); ("Xb", rB)] ].
Proof.
  destruct (Agent.solve_dynamically_run 2
              (Demo.agent (Some (Demo.planner_of 1)) (Demo.decompose_only "X"))
              "X" None None Demo.start) as [r s'| |] eqn:Hrun;
    [|vm_compute in Hrun; discriminate Hrun..].
  assert (Agent.decomposition r
          = Some (Plan.mk (Task.new "X" ∅)
                          [Demo.leaf "Xa"; Demo.leaf "Xb"; Demo.leaf "Xc"])) as Hplan.
  { vm_compute in Hrun. injection Hrun as <- _. reflexivity. }
  destruct (solve_dynamically_sibling_context 2
              (Demo.agent (Some (Demo.planner_of 1)) (Demo.decompose_only "X"))
              "X" None None Demo.start r s' _
              (Demo.leaf "Xa") (Demo.leaf "Xb") (Demo.leaf "Xc") Hrun Hplan eq_refl)
    as (fuel' & p & sub_results & rA & rB & rC & _ & _ & Hdescents & _).
  exists r, s', rA, rB. split; [reflexivity|]. split; [exact Hplan|].
  rewrite Hdescents. reflexivity.
Defined.

(** The six rows of the dispatch table, and a configuration outside them. *)
Example solve_rows :
  Agent.solve 2 (Demo.agent None Demo.always_resolve) "2+2?" None true Demo.start
  = Returns (Some "re:2+2?") (State 1 [])
  ∧ Agent.solve 2 (Demo.agent (Some (Demo.planner_of 1)) (Demo.decompose_only "X"))
                "X" None false Demo.start
    = Returns (Some "all of:?,?,?") (State 2 [])
  ∧ Agent.solve 2 (Demo.agent (Some (Demo.planner_of 1)) (Demo.decompose_only "X"))
                "X" None true Demo.start
    = Returns (Some "all of:re:Xa,re:Xb,re:Xc")
              (State 6 [[("Xa", Some "re:Xa"); ("Xb", Some "re:Xb"); ("Xc", Some "re:Xc")]])
  ∧ Agent.solve 2 (Demo.agent None (Demo.decompose_only "X"))
                "X" (Some Demo.two_step) true Demo.start
    = Returns (Some "all of:?,?") (State 1 [])
  ∧ Agent.solve 2 (Demo.agent (Some (Demo.planner_of 1)) (Demo.decompose_only "X"))
                "X" (Some Demo.two_step) false Demo.start
    = Returns (Some "all of:?,?") (State 2 [])
  ∧ Agent.solve 2 (Demo.agent (Some (Demo.planner_of 1)) (Demo.decompose_only "X"))
                "X" (Some Demo.two_step) true Demo.start
    = Raises NotImplementedError
  ∧ Agent.solve 2 (Demo.agent (Some Demo.falsy_planner) (Demo.decompose_only "X"))
                "X" (Some Demo.two_step) true Demo.start
    = Raises ValueError.
Proof. split_and!; vm_compute; reflexivity. Qed.

(** The failing input of C8: a set of strings is not merged. *)
Example add_knowledge_set_of_strings :
  Agent.add_knowledge (Demo.agent None Demo.always_resolve) (PySet {[ "a fact" ]})
  = inl TypeError.
Proof. reflexivity. Qed.

(** C4, as stated, fails: here an explicit plan and the agent's planner are
    both present and [dynamic] is true, but the plan (a leaf, of length 0) is
    falsy, and [solve] raises [ValueError], not [NotImplementedError]. *)
Lemma solve_falsy_plan_is_invalid :
  is_Some (Some (Demo.leaf "X"))
  ∧ is_Some (Agent.planner (Demo.agent (Some (Demo.planner_of 2)) Demo.always_resolve))
  ∧ Agent.solve 1 (Demo.agent (Some (Demo.planner_of 2)) Demo.always_resolve)
                "X" (Some (Demo.leaf "X")) true Demo.start
    = Raises ValueError.
Proof. split_and!; [by eexists..|reflexivity]. Qed.

Lemma solve_dynamically_depth_zero_witness :
  Agent.solve_dynamically 1
    (Demo.agent (Some (Demo.planner_of 0)) Demo.always_decompose)
    "X" None None Demo.start
  = Returns (Some "re:X") (State 1 []).
Proof.
  exact (proj2 (solve_dynamically_depth_zero 0
                  (Demo.agent (Some (Demo.planner_of 0)) Demo.always_decompose)
                  "X" None None Demo.start (Demo.planner_of 0) eq_refl eq_refl)).
Defined.

Lemma solve_no_plan_no_planner_witness :
  Agent.solve 0 (Demo.agent None Demo.always_resolve) "2+2?" None true Demo.start
  = Returns (Some "re:2+2?") (State 1 []).
Proof.
  exact (solve_no_plan_no_planner 0 (Demo.agent None Demo.always_resolve)
           "2+2?" true Demo.start eq_refl).
Defined.

(** C7, as stated, fails: in the top-level call, as [solve] makes it,
    [other_results] is [None], and [None] is what [execute] is given, not an
    empty sequence. *)
Lemma solve_dynamically_top_level_executes_with_None :
  ∃ r s' resolved,
    Agent.solve_dynamically_run 2
      (Demo.agent (Some (Demo.planner_of 1)) (Demo.decompose_only "X"))
      "X" None None Demo.start = Returns r s'
    ∧ Agent.executed r = Some (resolved, None)
    ∧ snd <$> Agent.executed r ≠ Some (Some []).
Proof. eexists _, _, _. split_and!; [vm_compute; reflexivity|reflexivity|done]. Qed.

Lemma solve_dynamically_synthesis_witness :
  ∃ r s',
    Agent.solve_dynamically_run 2
      (Demo.agent (Some (Demo.planner_of 1)) (Demo.decompose_only "X"))
      "X" None None Demo.start = Returns r s'
    ∧ snd <$> Agent.executed r = Some None
    ∧ Task.status (Agent.final_task r) = DONE
    ∧ Task.result (Agent.final_task r) = Agent.returned r.
Proof.
  destruct (Agent.solve_dynamically_run 2
              (Demo.agent (Some (Demo.planner_of 1)) (Demo.decompose_only "X"))
              "X" None None Demo.start) as [r s'| |] eqn:Hrun;
    [|vm_compute in Hrun; discriminate Hrun..].
  assert (Agent.decomposition r
          = Some (Plan.mk (Task.new "X" ∅)
                          [Demo.leaf "Xa"; Demo.leaf "Xb"; Demo.leaf "Xc"])) as Hplan.
  { vm_compute in Hrun. injection Hrun as <- _. reflexivity. }
  destruct (solve_dynamically_synthesis 2
              (Demo.agent (Some (Demo.planner_of 1)) (Demo.decompose_only "X"))
              "X" None None Demo.start r s' _ Hrun Hplan)
    as (fuel' & p & text & result & w1 & w2 & s3 & answer & _ & _ & _ & _ & _ & _ & _ & _
        & _ & _ & _ & Htask & Hreturned & Hnone).
  { intros l Hl. discriminate Hl. }
  exists r, s'. rewrite Htask, Hreturned. split_and!; [reflexivity| |reflexivity..].
  exact (Hnone eq_refl).
Defined.

Lemma solve_dynamically_without_planner_witness :
  Agent.solve_dynamically 1 (Demo.agent None Demo.always_decompose)
                          "X" None None Demo.start
  = Raises AttributeError
  ∧ Agent.solve_dynamically 1 (Demo.agent None Demo.always_resolve)
                            "X" None None Demo.start
    = Returns (Some "re:X") (State 1 []).
Proof.
  split.
  - exact (solve_dynamically_without_planner 0
             (Demo.agent None Demo.always_decompose) "X" None Demo.start eq_refl).
  - exact (solve_dynamically_without_planner 0
             (Demo.agent None Demo.always_resolve) "X" None Demo.start eq_refl).
Defined.

Lemma solve_falsy_planner_witness :
  Agent.solve 3 (Demo.agent (Some Demo.falsy_planner) Demo.always_resolve)
              "X" None true Demo.start = Raises ValueError
  ∧ Agent.solve 3 (Demo.agent (Some Demo.falsy_planner) Demo.always_resolve)
                "X" None false Demo.start = Raises ValueError.
Proof.
  split.
  - exact (solve_falsy_planner 3 (Demo.agent (Some Demo.falsy_planner) Demo.always_resolve)
             "X" true Demo.start Demo.falsy_planner eq_refl eq_refl).
  - exact (solve_falsy_planner 3 (Demo.agent (Some Demo.falsy_planner) Demo.always_resolve)
             "X" false Demo.start Demo.falsy_planner eq_refl eq_refl).
Defined.

(** The bound of C1 is exact: with [max_depth] 2 and a Reasoner that never
    resolves, two nested calls are not enough, three are. *)
Example solve_dynamically_depth_bound_is_tight :
  Agent.solve_dynamically_run 2
    (Demo.agent (Some (Demo.planner_of 2)) Demo.always_decompose)
    "X" None None Demo.start = OutOfFuel
  ∧ Agent.solve_dynamically 3
      (Demo.agent (Some (Demo.planner_of 2)) Demo.always_decompose)
      "X" None None Demo.start
    = Returns (Some "all of:all of:re:Xaa,re:Xab,re:Xac,all of:re:Xba,re:Xbb,re:Xbc,all of:re:Xca,re:Xcb,re:Xcc")
              (State 21 [[("Xa", Some "all of:re:Xaa,re:Xab,re:Xac");
                          ("Xb", Some "all of:re:Xba,re:Xbb,re:Xbc");
                          ("Xc", Some "all of:re:Xca,re:Xcb,re:Xcc")];
                         [("Xaa", Some "re:Xaa"); ("Xab", Some "re:Xab");
                          ("Xac", Some "re:Xac")];
                         [("Xba", Some "re:Xba"); ("Xbb", Some "re:Xbb");
                          ("Xbc", Some "re:Xbc")];
                         [("Xca", Some "re:Xca"); ("Xcb", Some "re:Xcb");
                          ("Xcc", Some "re:Xcc")]]).
Proof. split; vm_compute; reflexivity. Qed.

(** Why C1 needs truthy derived planners: a falsy [sub_planner] loses against
    [self.planner] in [planner or self.planner], so every level runs on the
    agent's own planner again and the budget never shrinks. *)
Lemma Sticky_never_ends fuel problem planner other_results s :
  Agent.solve_dynamically_run fuel (Sticky.agent 1) problem planner other_results s
  = OutOfFuel.
Proof.
  revert problem planner other_results s.
  induction fuel as [|fuel IH]; intros problem planner other_results s; [done|].
  rewrite solve_dynamically_run_S.
  replace (Agent.planner_or planner (Agent.planner (Sticky.agent 1))) with (Some 1%Z)
    by (by destruct planner).
  cbn [AReasoner.reason Demo.reasoner_ops Agent.reasoner Sticky.agent].
  cbn zeta. unfold Demo.always_decompose at 1. cbn [TaskStatus_eqb].
  cbn [APlanner.max_depth Sticky.planner_ops int_truth Z.eqb negb].
  rewrite bind_eq. cbn [new_list]. rewrite bind_eq, invoke_eq.
  cbn [APlanner.plan APlanner.one_level_deep Sticky.planner_ops].
  rewrite bind_eq. cbn [Plan.sub_plans].
  by rewrite for_sub_plans_cons, IH.
Qed.

(** ** Further properties of the agent *)

Section Overviews.
Context {Planner Reasoner : Type}.
Implicit Types (self : Agent.t Planner Reasoner) (iteration : gset Resource → list Resource).

Lemma overviews_of_snoc (sequence : list Resource) (r : Resource) :
  Agent.overviews_of (sequence ++ [r])
  = <[unique_name r := overview r]> (Agent.overviews_of sequence).
Proof. unfold Agent.overviews_of. by rewrite foldl_app. Qed.

(** An entry of the mapping is a resource of the sequence, and every resource
    of the sequence has its name among the keys. *)
Lemma overviews_of_lookup (sequence : list Resource) (name text : string) :
  Agent.overviews_of sequence !! name = Some text →
  {| unique_name := name; overview := text |} ∈ sequence.
Proof.
  induction sequence as [|r sequence IH] using rev_ind; [done|].
  rewrite overviews_of_snoc, elem_of_app, list_elem_of_singleton.
  destruct (decide (unique_name r = name)) as [<-|Hne].
  - rewrite lookup_insert_eq. intros [= <-]. right. by destruct r.
  - rewrite lookup_insert_ne by done. auto.
Qed.

Lemma overviews_of_is_Some (sequence : list Resource) (name : string) :
  is_Some (Agent.overviews_of sequence !! name)
  ↔ ∃ r, r ∈ sequence ∧ unique_name r = name.
Proof.
  induction sequence as [|r sequence IH] using rev_ind.
  { split; [by intros [? ?]|]. by intros (r & ?%elem_of_nil & _). }
  rewrite overviews_of_snoc. destruct (decide (unique_name r = name)) as [<-|Hne].
  - rewrite lookup_insert_eq. split; [|by eauto]. intros _. exists r.
    split; [|done]. apply elem_of_app. right. by apply list_elem_of_singleton.
  - rewrite lookup_insert_ne, IH by done. split.
    + intros (r' & Hin & Hname). exists r'. split; [|done]. apply elem_of_app. by left.
    + intros (r' & [Hin | ->%list_elem_of_singleton]%elem_of_app & Hname); [by eauto|done].
Qed.

(** The last resource of a name decides the entry. *)
Lemma overviews_of_last (before after : list Resource) (r : Resource) :
  (∀ r', r' ∈ after → unique_name r' ≠ unique_name r) →
  Agent.overviews_of (before ++ r :: after) !! unique_name r = Some (overview r).
Proof.
  induction after as [|r' after IH] using rev_ind; intros Hafter.
  - by rewrite overviews_of_snoc, lookup_insert_eq.
  - replace (before ++ r :: after ++ [r']) with ((before ++ r :: after) ++ [r'])
      by (by rewrite <-app_assoc).
    rewrite overviews_of_snoc, lookup_insert_ne.
    + apply IH. intros r'' Hin. apply Hafter, elem_of_app. by left.
    + apply Hafter, elem_of_app. right. by apply list_elem_of_singleton.
Qed.

(** X1.  Whatever the order in which the set of resources is iterated, the
    keys of [resource_overviews] are exactly the names of the agent's
    resources, and every entry pairs the name of one of them with its
    overview. *)
Theorem resource_overviews_entries iteration self :
  iteration (Agent.resources self) ≡ₚ elements (Agent.resources self) →
  (∀ name, is_Some (Agent.resource_overviews iteration self !! name)
           ↔ ∃ r, r ∈ Agent.resources self ∧ unique_name r = name)
  ∧ (∀ name text,
       Agent.resource_overviews iteration self !! name = Some text →
       {| unique_name := name; overview := text |} ∈ Agent.resources self).
Proof.
  intros Hperm. unfold Agent.resource_overviews. split.
  - intros name. rewrite overviews_of_is_Some.
    by setoid_rewrite Hperm; setoid_rewrite elem_of_elements.
  - intros name text Hentry%overviews_of_lookup.
    by rewrite Hperm, elem_of_elements in Hentry.
Qed.

(** X2.  When no two resources of the agent share a name, every resource is
    found under its name with its own overview, the mapping has as many
    entries as the agent has resources, and the order of iteration does not
    matter. *)
Theorem resource_overviews_unique_names iteration self :
  iteration (Agent.resources self) ≡ₚ elements (Agent.resources self) →
  (∀ r1 r2, r1 ∈ Agent.resources self → r2 ∈ Agent.resources self →
            unique_name r1 = unique_name r2 → r1 = r2) →
  (∀ r, r ∈ Agent.resources self →
        Agent.resource_overviews iteration self !! unique_name r = Some (overview r))
  ∧ size (Agent.resource_overviews iteration self) = size (Agent.resources self)
  ∧ (∀ iteration',
       iteration' (Agent.resources self) ≡ₚ elements (Agent.resources self) →
       Agent.resource_overviews iteration' self
       = Agent.resource_overviews iteration self).
Proof.
  intros Hperm Hunique.
  assert (∀ it, it (Agent.resources self) ≡ₚ elements (Agent.resources self) →
                ∀ r, r ∈ Agent.resources self →
                     Agent.resource_overviews it self !! unique_name r
                     = Some (overview r)) as Hfound.
  { intros it Hit r Hr. unfold Agent.resource_overviews.
    assert (r ∈ it (Agent.resources self)) as Hin by (by rewrite Hit, elem_of_elements).
    apply list_elem_of_split in Hin as (before & after & Hsplit). rewrite Hsplit.
    apply overviews_of_last. intros r' Hr' Hname.
    assert (NoDup (before ++ r :: after)) as Hnodup.
    { rewrite <-Hsplit, Hit. apply NoDup_elements. }
    apply NoDup_app in Hnodup as (_ & _ & Hnodup). apply NoDup_cons in Hnodup as [Hnotin _].
    apply Hnotin. replace r with r'; [done|].
    apply Hunique; [| done | done].
    apply elem_of_elements. rewrite <-Hit, Hsplit.
    apply elem_of_app. right. by apply elem_of_cons; right. }
  assert (∀ it, it (Agent.resources self) ≡ₚ elements (Agent.resources self) →
                Agent.resource_overviews it self
                = list_to_map ((λ r, (unique_name r, overview r))
                                 <$> elements (Agent.resources self))) as Hcanon.
  { intros it Hit. apply map_eq. intros name.
    destruct (Agent.resource_overviews it self !! name) as [text|] eqn:Hentry.
    - symmetry. apply elem_of_list_to_map_1.
      + rewrite <-list_fmap_compose. apply NoDup_fmap_2_strong; [|apply NoDup_elements].
        intros r1 r2 ?%elem_of_elements ?%elem_of_elements. by apply Hunique.
      + apply overviews_of_lookup in Hentry. rewrite Hit in Hentry.
        apply list_elem_of_fmap. by eexists; split; [|exact Hentry].
    - symmetry. apply not_elem_of_list_to_map_1. rewrite <-list_fmap_compose.
      intros (r & -> & Hr%elem_of_elements)%list_elem_of_fmap.
      pose proof (Hfound it Hit r Hr) as Hr'. cbn in Hentry. congruence. }
  split_and!.
  - by apply Hfound.
  - rewrite (Hcanon iteration Hperm), <-size_dom, dom_list_to_map_L.
    rewrite <-list_fmap_compose, size_list_to_set, length_fmap; [done|].
    apply NoDup_fmap_2_strong; [|apply NoDup_elements].
    intros r1 r2 ?%elem_of_elements ?%elem_of_elements. by apply Hunique.
  - intros iteration' Hperm'. by rewrite (Hcanon iteration Hperm), (Hcanon iteration' Hperm').
Qed.

(** X3.  When resources share a name, the one that comes last in the
    iteration decides the entry: its overview replaces the earlier ones. *)
Theorem resource_overviews_last_wins iteration self before after r :
  iteration (Agent.resources self) = before ++ r :: after →
  (∀ r', r' ∈ after → unique_name r' ≠ unique_name r) →
  Agent.resource_overviews iteration self !! unique_name r = Some (overview r).
Proof.
  intros Hsplit Hafter. unfold Agent.resource_overviews. rewrite Hsplit.
  by apply overviews_of_last.
Qed.
(** *** Knowledge *)

Lemma add_knowledge_PyStr self (text : string) :
  Agent.add_knowledge self (PyStr text)
  = inr (Agent.with_knowledge ({[ text ]} ∪ Agent.knowledge self) self).
Proof. reflexivity. Qed.

(** X4.  Adding strings to the knowledge composes as a set does: a string
    added twice is there once, two strings added in either order leave the same
    agent, the knowledge afterwards is the old knowledge and the strings
    added, and planner, reasoner and resources are never touched. *)
Theorem add_knowledge_strings_compose self (a b : string) :
  ∃ self_a self_ab self_b,
    Agent.add_knowledge self (PyStr a) = inr self_a
    ∧ Agent.add_knowledge self_a (PyStr a) = inr self_a
    ∧ Agent.add_knowledge self_a (PyStr b) = inr self_ab
    ∧ Agent.add_knowledge self (PyStr b) = inr self_b
    ∧ Agent.add_knowledge self_b (PyStr a) = inr self_ab
    ∧ Agent.knowledge self_ab = Agent.knowledge self ∪ {[ a; b ]}
    ∧ Agent.planner self_ab = Agent.planner self
    ∧ Agent.reasoner self_ab = Agent.reasoner self
    ∧ Agent.resources self_ab = Agent.resources self.
Proof.
  exists (Agent.with_knowledge ({[ a ]} ∪ Agent.knowledge self) self),
         (Agent.with_knowledge ({[ b ]} ∪ ({[ a ]} ∪ Agent.knowledge self)) self),
         (Agent.with_knowledge ({[ b ]} ∪ Agent.knowledge self) self).
  rewrite !add_knowledge_PyStr. unfold Agent.with_knowledge.
  cbn [Agent.knowledge Agent.planner Agent.reasoner Agent.resources].
  split_and!; try reflexivity.
  - do 2 f_equal. by rewrite (assoc_L (∪)), union_idemp_L.
  - do 2 f_equal. by rewrite !(assoc_L (∪)), (comm_L (∪) {[ a ]} {[ b ]}).
  - by rewrite (comm_L (∪) (Agent.knowledge self)), (assoc_L (∪)),
               (comm_L (∪) {[ b ]} {[ a ]}).
Qed.

End Overviews.

Section MoreProperties.
Context {World Planner Reasoner : Type}.
Context `{!APlanner.ops World Planner, !AReasoner.ops World Reasoner,
          !APlan.ops World Reasoner}.

Implicit Types (self : Agent.t Planner Reasoner) (s : state World).
Implicit Types (solve : string → option Planner → option nat → M World (Agent.Run Planner)).

(** *** What [solve] can raise *)

Lemma planner_or_fallback (planner : option Planner) (p0 : Planner) :
  ∃ p, Agent.planner_or planner (Some p0) = Some p.
Proof.
  destruct planner as [p|]; [|by eexists]. cbn.
  destruct (APlanner.truth p); by eexists.
Qed.

Lemma for_sub_plans_raises_with (P : exn → Prop) solve sub_planner sub_results sub_plans s e :
  (∀ a p o s e, solve a p o s = Raises e → P e) →
  Agent.for_sub_plans solve sub_planner sub_results sub_plans s = Raises e → P e.
Proof.
  intros Hsolve. revert s.
  induction sub_plans as [|sub_plan rest IH]; intros s; [done|].
  rewrite for_sub_plans_cons.
  destruct (solve _ _ _ s) as [r s1|e'|] eqn:Hcall; [| |done].
  - cbn zeta.
    destruct (Agent.for_sub_plans _ _ _ _ _) as [[rest' ds] s2|e'|] eqn:Hrest; [done| |done].
    intros [= <-]. by eapply IH.
  - intros [= <-]. by eapply Hsolve.
Qed.

(** On an agent that has a planner, a dynamic solve raises only what a
    collaborator raised: [max_depth] is never read on [None]. *)
Lemma solve_dynamically_run_raises_upstream
    fuel self problem planner other_results s e p0 :
  Agent.planner self = Some p0 →
  Agent.solve_dynamically_run fuel self problem planner other_results s = Raises e →
  ∃ msg, e = UpstreamError msg.
Proof.
  intros Hp0. revert problem planner other_results s e.
  induction fuel as [|fuel IH]; intros problem planner other_results s e; [done|].
  rewrite solve_dynamically_run_S, Hp0.
  destruct (AReasoner.reason _ _ _ _) as [msg|[[text [status result]] w]].
  { intros [= <-]. eauto. }
  cbn zeta. destruct (TaskStatus_eqb _ _); [|done].
  destruct (planner_or_fallback planner p0) as [p ->].
  destruct (int_truth _); [|done].
  rewrite bind_eq. cbn [new_list]. rewrite bind_eq, invoke_eq.
  destruct (APlanner.plan _ _ _ _ _) as [msg|[plan_1 w2]].
  { intros [= <-]. eauto. }
  rewrite bind_eq.
  destruct (Agent.for_sub_plans _ _ _ _ _) as [[sub_plans ds] s3|e'|] eqn:Hloop; [| |done].
  - rewrite bind_eq, contents_opt_eq, bind_eq, invoke_eq.
    destruct (APlan.execute _ _ _ _ _) as [msg|[answer w4]]; [|done].
    intros [= <-]. eauto.
  - intros [= <-].
    eapply (for_sub_plans_raises_with (λ e, ∃ msg, e = UpstreamError msg)); [|exact Hloop].
    exact IH.
Qed.

(** X5.  [solve] ends with no other exception of its own than
    [NotImplementedError] and [ValueError]: every other exception comes from a
    collaborator.  In particular the [AttributeError] of a dynamic solve
    without planner cannot be reached through [solve]. *)
Theorem solve_raises_only fuel self problem plan dynamic s e :
  Agent.solve fuel self problem plan dynamic s = Raises e →
  e = NotImplementedError ∨ e = ValueError ∨ ∃ msg, e = UpstreamError msg.
Proof.
  rewrite solve_perform. intros Hraise.
  destruct (perform_raises _ _ _ _ _ _ Hraise)
    as [[_ ->]|[[_ ->]|(Hrow1 & Hrow2 & [-> | Hup])]]; auto.
  exfalso. revert Hraise Hrow1 Hrow2. unfold dispatch_table.
  assert (∀ plan' s0,
            (invoke (APlan.execute plan' (Agent.reasoner self) None (Agent.knowledge self))
               ≫= λ text, mret (Some text)) s0 ≠ Raises AttributeError) as Hexecute.
  { intros plan' s0 [[msg [=]]%invoke_raises|(a & s1 & _ & [=])]%bind_raises. }
  destruct plan as [plan|], (Agent.planner self) as [p0|] eqn:Hp0, dynamic;
    try destruct (APlan.truth plan); try destruct (APlanner.truth p0);
    cbn [andb perform]; try done.
  all: try (intros Hraise _ _; by apply Hexecute in Hraise).
  all: try (intros [[msg [=]]%invoke_raises|(a & s1 & _ & Hraise)]%bind_raises _ _;
            by apply Hexecute in Hraise).
  - rewrite solve_dynamically_eq.
    destruct (Agent.solve_dynamically_run _ _ _ _ _ _) as [r s1|e'|] eqn:Hrun; try done.
    intros [= ->] _ _.
    by destruct (solve_dynamically_run_raises_upstream _ _ _ _ _ _ _ _ Hp0 Hrun).
  - intros [[msg [=]]%invoke_raises|([text sr] & s1 & _ & [=])]%bind_raises.
  - intros [[msg [=]]%invoke_raises|([text sr] & s1 & _ & [=])]%bind_raises.
Qed.

(** *** The recursive calls of a dynamic solve *)

Lemma sibling_context_lookup (acc : list AskAnsPair)
    (ds : list (Agent.Descent Planner)) (i : nat) (d : Agent.Descent Planner) :
  sibling_context acc ds → ds !! i = Some d →
  Agent.visible d = acc ++ map pair_of (take i ds).
Proof.
  revert acc i. induction ds as [|d0 ds IH]; intros acc i Hctx; [done|].
  destruct Hctx as [Hd0 Hctx]. destruct i as [|i].
  - intros [= <-]. cbn. by rewrite app_nil_r.
  - cbn. intros Hd. rewrite (IH _ _ Hctx Hd), <-app_assoc. done.
Qed.

(** X6.  However many sub-plans the Planner returns, a call that decomposes
    makes exactly one recursive call per sub-plan, in their order; the i-th
    call gets the i-th sub-plan's question, and the list it is given as
    [other_results] then holds exactly the (question, answer) pairs of the i
    calls before it, in order.  That list is one the call has created itself,
    later than every list that existed when the call started. *)
Theorem solve_dynamically_each_descent
    fuel self problem planner other_results s r s' plan_1 :
  Agent.solve_dynamically_run fuel self problem planner other_results s = Returns r s' →
  Agent.decomposition r = Some plan_1 →
  length (Agent.descents r) = length (Plan.sub_plans plan_1)
  ∧ (∀ i d,
       Agent.descents r !! i = Some d →
       Agent.visible d = map pair_of (take i (Agent.descents r))
       ∧ (Task.ask ∘ Plan.task) <$> Plan.sub_plans plan_1 !! i = Some (Agent.sub_problem d)
       ∧ Agent.other_results_arg d = Some (length (lists s))).
Proof.
  intros Hrun Hplan.
  destruct (solve_dynamically_run_siblings _ _ _ _ _ _ _ _ _ Hrun Hplan)
    as (fuel' & p & -> & Hp & Hasks & Hctx & Hargs & _ & _).
  split.
  - apply (f_equal length) in Hasks. by rewrite !length_map in Hasks.
  - intros i d Hd. split_and!.
    + by rewrite (sibling_context_lookup [] _ i d Hctx Hd).
    + change (Agent.sub_problem <$> Agent.descents r
              = (Task.ask ∘ Plan.task) <$> Plan.sub_plans plan_1) in Hasks.
      apply (f_equal (.!! i)) in Hasks. rewrite !list_lookup_fmap, Hd in Hasks.
      by rewrite <-Hasks.
    + rewrite Forall_lookup in Hargs. by destruct (Hargs i d Hd).
Qed.

(** A list created after the caller's lists does not change what an
    [other_results] argument refers to: beyond the caller's lists there is
    only the new, empty list. *)
Lemma siblings_in_new_list (w w' : World) (ls : list (list AskAnsPair))
    (other_results : option nat) :
  siblings_in (State w' (ls ++ [[]])) other_results
  = siblings_in (State w ls) other_results.
Proof.
  destruct other_results as [l|]; [|done]. unfold siblings_in. cbn [lists]. f_equal.
  destruct (decide (l < length ls)) as [Hlt|Hge].
  - by rewrite lookup_app_l.
  - rewrite lookup_app_r, (lookup_ge_None_2 ls l) by lia.
    by destruct (l - length ls) as [|[|n]].
Qed.

(** X7.  When the Planner returns a plan without sub-plans, the call makes no
    recursive call: right after the Planner's call, in the world the Planner
    left, it runs [execute] on the Planner's plan as it is, with
    [other_results] being what the caller passed.  The task's result is the
    text [execute] returned, its status is [DONE], the call returns that text,
    and the only list the call leaves behind is its own empty
    [sub_results]. *)
Theorem solve_dynamically_empty_decomposition
    fuel self problem planner other_results s r s' plan_1 :
  Agent.solve_dynamically_run fuel self problem planner other_results s = Returns r s' →
  Agent.decomposition r = Some plan_1 →
  Plan.sub_plans plan_1 = [] →
  ∃ fuel' p text result w1 w2 answer,
    fuel = S fuel'
    ∧ AReasoner.reason (Agent.reasoner self) (Task.new problem (Agent.resources self))
                       (Agent.knowledge self) (world s)
      = inr ((text, (NEEDING_DECOMPOSITION, result)), w1)
    ∧ Agent.planner_or planner (Agent.planner self) = Some p
    ∧ APlanner.plan (APlanner.one_level_deep p) problem (Agent.resources self) None w1
      = inr (plan_1, w2)
    ∧ APlan.execute plan_1 (Agent.reasoner self) (siblings_in s other_results)
                    (Agent.knowledge self) w2
      = inr (answer, world s')
    ∧ Agent.descents r = []
    ∧ Agent.executed r = Some (plan_1, siblings_in s other_results)
    ∧ Agent.final_task r = Task.mk problem (Agent.resources self) DONE (Some answer)
    ∧ Agent.returned r = Some answer
    ∧ lists s' = lists s ++ [[]].
Proof.
  intros Hrun Hplan Hempty.
  apply solve_dynamically_run_returns in Hrun
    as (fuel' & text & status & result & w1 & -> & Hreason & Hcases).
  destruct Hcases as [(-> & _)|(p & plan_1' & w2 & sub_plans & s3 & answer & w4 & -> & Hp
                               & _ & Hplanned & Hloop & Hexec & -> & Hr)]; [done|].
  rewrite Hr in Hplan. injection Hplan as ->.
  rewrite Hempty in Hloop. injection Hloop as <- Hds <-.
  assert (Plan.with_sub_plans [] plan_1 = plan_1) as Hsame.
  { destruct plan_1 as [task subs]. cbn in Hempty. by rewrite Hempty. }
  rewrite Hsame in Hexec, Hr.
  destruct s as [w ls]. rewrite (siblings_in_new_list w) in Hexec, Hr.
  exists fuel', p, text, result, w1, w2, answer.
  split_and!; [done..| | | | |done].
  - done.
  - by rewrite Hr.
  - by rewrite Hr.
  - by rewrite Hr.
Qed.

(** X8.  A recursive call that raises ends the loop with that exception,
    whatever sub-plans would have followed: once the sub-plans before it are
    resolved and its own call raises, no later sibling changes the outcome. *)
Theorem for_sub_plans_aborts
    solve sub_planner sub_results before sub_plan after s resolved ds s1 e :
  Agent.for_sub_plans solve sub_planner sub_results before s = Returns (resolved, ds) s1 →
  solve (Task.ask (Plan.task sub_plan)) (Some sub_planner) (Some sub_results) s1
    = Raises e →
  Agent.for_sub_plans solve sub_planner sub_results (before ++ sub_plan :: after) s
  = Raises e.
Proof.
  revert s resolved ds. induction before as [|first before IH]; intros s resolved ds.
  - intros [= _ _ <-] Hraise. cbn [app]. by rewrite for_sub_plans_cons, Hraise.
  - rewrite <-app_comm_cons, !for_sub_plans_cons.
    destruct (solve _ _ _ s) as [r0 s0| |]; [|done..]. cbn zeta.
    destruct (Agent.for_sub_plans _ _ _ before _) as [[rest' ds'] s2| |] eqn:Hrest;
      [|done..].
    intros [= _ _ <-] Hraise. by rewrite (IH _ _ _ Hrest Hraise).
Qed.

(** X9.  A dynamic solve never changes a list that existed when it was
    called: when it returns, the list it was given as [other_results], like
    every other list of the caller, holds what it held before. *)
Theorem solve_dynamically_keeps_lists
    fuel self problem planner other_results s r s' (l : nat) (pairs : list AskAnsPair) :
  Agent.solve_dynamically_run fuel self problem planner other_results s = Returns r s' →
  lists s !! l = Some pairs →
  lists s' !! l = Some pairs.
Proof.
  intros Hrun%solve_dynamically_run_frame Hl. by eapply prefix_lookup_Some.
Qed.

(** X10.  The last level of decomposition: when the active planner's
    [max_depth] is 1 (and derived planners are truthy objects), every
    sub-question is answered by one call of the Reasoner, and its answer is the
    result the Reasoner left, whatever status came with it. *)
Theorem solve_dynamically_last_level
    fuel self problem planner other_results s r s' p :
  (∀ q : Planner, APlanner.truth (APlanner.one_fewer_level_deep q) = true) →
  Agent.planner_or planner (Agent.planner self) = Some p →
  APlanner.max_depth p = 1%Z →
  Agent.solve_dynamically_run fuel self problem planner other_results s = Returns r s' →
  Forall (λ d,
            ∃ s1 text status result w,
              AReasoner.reason (Agent.reasoner self)
                (Task.new (Agent.sub_problem d) (Agent.resources self))
                (Agent.knowledge self) (world s1)
                = inr ((text, (status, result)), w)
              ∧ Agent.sub_result d = result)
         (Agent.descents r).
Proof.
  intros Htruth Hp Hone Hrun.
  apply solve_dynamically_run_returns in Hrun
    as (fuel' & text & status & result & w1 & -> & _ & Hcases).
  destruct Hcases as [(-> & _)|(p' & plan_1 & w2 & sub_plans & s3 & answer & w4 & _ & Hp'
                               & _ & _ & Hloop & _)]; [by constructor|].
  assert (p' = p) as -> by congruence.
  apply for_sub_plans_fresh in Hloop as (_ & _ & _ & _ & Hargs & Hcalls).
  apply Forall_forall. intros d Hd.
  rewrite Forall_forall in Hargs, Hcalls.
  destruct (Hargs d Hd) as [Hplanner _].
  destruct (Hcalls d Hd) as (s1 & r0 & s2 & Hcall & Hreturned & _).
  rewrite Hplanner in Hcall.
  apply solve_dynamically_run_returns in Hcall
    as (fuel'' & text0 & status0 & result0 & w0 & _ & Hreason & Hcases).
  exists s1, text0, status0, result0, w0. split; [done|].
  destruct Hcases as [(-> & _)|(q & plan' & w' & sub' & s4 & answer' & w'' & _ & Hq & Hgo & _)].
  - by rewrite <-Hreturned.
  - rewrite planner_or_truthy in Hq by done. injection Hq as <-.
    rewrite APlanner.one_fewer_level_deep_max_depth, Hone in Hgo. done.
Qed.

(** *** Termination of [solve] *)

Lemma perform_static_ends (m : M World Plan.t) self s :
  m s ≠ OutOfFuel →
  (m ≫= λ plan,
     invoke (APlan.execute plan (Agent.reasoner self) None (Agent.knowledge self))
     ≫= λ text, mret (Some text)) s ≠ OutOfFuel.
Proof.
  intros Hm. rewrite bind_eq. destruct (m s) as [plan s1| |]; [|done..].
  rewrite bind_eq, invoke_eq. by destruct (APlan.execute _ _ _ _ _) as [msg|[text w]].
Qed.

(** X11.  [solve] ends in every row of its dispatch: when the agent's planner
    (if it has one) has a non-negative [max_depth] and derived planners are
    truthy objects, [1 + max_depth] nested calls are always enough, whatever
    the plan, the flag and the collaborators' answers. *)
Theorem solve_ends fuel self problem plan dynamic s :
  (∀ q : Planner, APlanner.truth (APlanner.one_fewer_level_deep q) = true) →
  (∀ p, Agent.planner self = Some p →
        (0 ≤ APlanner.max_depth p < Z.of_nat fuel)%Z) →
  Agent.solve fuel self problem plan dynamic s ≠ OutOfFuel.
Proof.
  intros Htruth Hdepth. rewrite solve_perform. unfold dispatch_table.
  destruct plan as [plan|], (Agent.planner self) as [p0|] eqn:Hp0, dynamic;
    try destruct (APlan.truth plan); try destruct (APlanner.truth p0) eqn:Hp0true;
    cbn [andb perform]; try done.
  all: try (apply (perform_static_ends (invoke _)); apply invoke_ends).
  all: try (apply (perform_static_ends (λ s, Returns plan s)); done).
  - rewrite solve_dynamically_eq.
    destruct (Agent.solve_dynamically_run _ _ _ _ _ _) as [r s1|e|] eqn:Hrun; try done.
    exfalso. revert Hrun. apply (solve_dynamically_run_ends _ _ _ _ _ _ p0); [done| |by auto].
    cbn. by rewrite Hp0.
  - rewrite bind_eq, invoke_eq. by destruct (AReasoner.reason _ _ _ _) as [msg|[[? ?] ?]].
  - rewrite bind_eq, invoke_eq. by destruct (AReasoner.reason _ _ _ _) as [msg|[[? ?] ?]].
Qed.

End MoreProperties.

(** ** Properties of the adapter *)

Section AdapterProperties.
Context {World Backend Value : Type}.
Context `{!AbstractBackend.ops World Backend Value}.

Import BaseAdapter.

Implicit Types (self : BaseAdapter.t) (h : heap World Backend).
Implicit Types (bs : list (option Backend)).

Lemma then_eq {A B} (f : A → Eff World Backend B) (m : Eff World Backend A) h :
  (m ≫= f) h = match m h with
               | Returned a h' => f a h'
               | Raised e => Raised e
               end.
Proof. reflexivity. Qed.

Lemma then_returned {A B} (f : A → Eff World Backend B) (m : Eff World Backend A) h b h' :
  (m ≫= f) h = Returned b h' → ∃ a h1, m h = Returned a h1 ∧ f a h1 = Returned b h'.
Proof. rewrite then_eq. destruct (m h) as [a h1|]; [eauto|done]. Qed.

(** The property [backends], case by case. *)
Lemma backends_eq self h :
  backends self h
  = match entries self h with
    | b :: bs => Returned (default 0 (_backends self), self) h
    | [] =>
        match AbstractBackend.TextBackend (outside h) with
        | inl msg => Raised (Python (UpstreamError msg))
        | inr (b, w) =>
            Returned (length (objects h), mk (Some (length (objects h))))
                     (Heap w (objects h ++ [[Some b]]))
        end
    end.
Proof.
  assert ((ask AbstractBackend.TextBackend ≫= λ b : Backend,
             alloc [Some b] ≫= λ l : nat, mret (l, mk (Some l))) h
          = match AbstractBackend.TextBackend (outside h) with
            | inl msg => Raised (Python (UpstreamError msg))
            | inr (b, w) =>
                Returned (length (objects h), mk (Some (length (objects h))))
                         (Heap w (objects h ++ [[Some b]]))
            end) as Hfresh.
  { rewrite then_eq. unfold ask.
    by destruct (AbstractBackend.TextBackend (outside h)) as [msg|[b w]]. }
  unfold backends, entries. destruct (_backends self) as [l|]; [|exact Hfresh].
  rewrite then_eq. cbn [read].
  by destruct (default [] (objects h !! l)) as [|b bs].
Qed.

Lemma entries_fresh (w : World) (objs : list (list (option Backend))) bs :
  entries (mk (Some (length objs))) (Heap w (objs ++ [bs])) = bs.
Proof. unfold entries. cbn. by rewrite lookup_app_r, Nat.sub_diag. Qed.

(** What [backends] returns is what [_backends] then refers to, a list with
    an entry. *)
Lemma backends_returned self h l self' h' :
  backends self h = Returned (l, self') h' →
  _backends self' = Some l ∧ ∃ b bs, objects h' !! l = Some (b :: bs).
Proof.
  rewrite backends_eq. destruct (entries self h) as [|b bs] eqn:Hentries.
  - destruct (AbstractBackend.TextBackend (outside h)) as [msg|[b w]]; [done|].
    intros [= <- <- <-]. split; [done|].
    exists (Some b), []. cbn. by rewrite lookup_app_r, Nat.sub_diag.
  - intros [= <- <- <-]. unfold entries in Hentries.
    destruct (_backends self) as [l0|] eqn:Hl0; [|done]. cbn [default].
    destruct (objects h !! l0) as [bs0|] eqn:Hbs0; [|done]. cbn in Hentries. subst bs0.
    split; [done|]. by exists b, bs.
Qed.

(** X12.  Reading [backends] never yields an empty list: afterwards
    [_backends] refers to a list with at least one entry, and reading it again
    gives the same list and changes nothing.  A list that already has an entry
    is kept as it is, with no [TextBackend] made. *)
Theorem backends_never_empty self h l self' h' :
  backends self h = Returned (l, self') h' →
  _backends self' = Some l
  ∧ (∃ b bs, objects h' !! l = Some (b :: bs))
  ∧ backends self' h' = Returned (l, self') h'
  ∧ (∀ b bs, entries self h = b :: bs → _backends self = Some l ∧ self' = self ∧ h' = h).
Proof.
  rewrite backends_eq. destruct (entries self h) as [|b bs] eqn:Hentries.
  - destruct (AbstractBackend.TextBackend (outside h)) as [msg|[b w]]; [done|].
    intros [= <- <- <-]. split_and!.
    + done.
    + exists (Some b), []. cbn. by rewrite lookup_app_r, Nat.sub_diag.
    + by rewrite backends_eq, entries_fresh.
    + done.
  - intros [= <- <- <-]. unfold entries in Hentries.
    destruct (_backends self) as [l0|] eqn:Hl0; [|done]. cbn [default].
    destruct (objects h !! l0) as [bs0|] eqn:Hbs0; [|done]. cbn in Hentries. subst bs0.
    split_and!.
    + done.
    + by exists b, bs.
    + rewrite backends_eq. unfold entries. by rewrite Hl0, Hbs0.
    + done.
Qed.

(** X13.  [self.backends[0]] is always in range: neither [_get_first_backend]
    nor [add_fact], [add_inferencer] or [add_heuristic] can raise
    [IndexError], whatever [_backends] was. *)
Theorem first_backend_in_range self h (fact heuristic : string) (inferencer : Value) :
  _get_first_backend self h ≠ Raised IndexError
  ∧ add_fact self fact h ≠ Raised IndexError
  ∧ add_inferencer self inferencer h ≠ Raised IndexError
  ∧ add_heuristic self heuristic h ≠ Raised IndexError.
Proof.
  assert (_get_first_backend self h ≠ Raised IndexError) as Hfirst.
  { unfold _get_first_backend. rewrite then_eq.
    destruct (backends self h) as [[l self'] h'|e] eqn:Hget.
    - destruct (backends_returned _ _ _ _ _ Hget) as (_ & b & bs & Hl).
      rewrite then_eq. cbn [read]. by rewrite Hl.
    - rewrite backends_eq in Hget. destruct (entries self h) as [|b bs]; [|done].
      destruct (AbstractBackend.TextBackend (outside h)) as [msg|[b' w]]; [|done].
      by injection Hget as <-. }
  assert (∀ (m : Backend → call World unit),
            (_get_first_backend self ≫= λ '(backend, self),
               method backend m ≫= λ _, mret (tt, self)) h ≠ Raised IndexError) as Hadd.
  { intros m. rewrite then_eq.
    destruct (_get_first_backend self h) as [[backend self'] h'|e] eqn:Hget;
      [|by intros [= ->]].
    rewrite then_eq. destruct backend as [b|]; [|done]. cbn [method]. unfold ask.
    by destruct (m b (outside h')) as [msg|[[] w]]. }
  split_and!; [done|apply Hadd..].
Qed.

(** X14.  On an adapter whose [_backends] is [None] or an empty list,
    [add_backend] first makes the default [TextBackend] and then appends: the
    adapter ends with a new list [[TextBackend(), backend]], the backend added
    is second, and [_get_first_backend] afterwards gives the [TextBackend].
    The empty list that was passed in stays empty. *)
Theorem add_backend_after_default self h (backend : option Backend) (text : Backend) w :
  entries self h = [] →
  AbstractBackend.TextBackend (outside h) = inr (text, w) →
  add_backend self backend h
  = Returned (tt, mk (Some (length (objects h))))
             (Heap w (objects h ++ [[Some text; backend]]))
  ∧ _get_first_backend (mk (Some (length (objects h))))
                       (Heap w (objects h ++ [[Some text; backend]]))
    = Returned (Some text, mk (Some (length (objects h))))
               (Heap w (objects h ++ [[Some text; backend]])).
Proof.
  intros Hentries Htext. split.
  - unfold add_backend. rewrite then_eq, backends_eq, Hentries, Htext.
    rewrite then_eq. cbn [push outside objects].
    rewrite alter_app_r_alt by done. by rewrite Nat.sub_diag.
  - unfold _get_first_backend. rewrite then_eq, backends_eq, entries_fresh.
    cbn [default _backends]. rewrite then_eq. cbn [read objects].
    by rewrite lookup_app_r, Nat.sub_diag.
Qed.

(** X15.  On an adapter whose list has an entry, [add_backend] appends to that
    very list object: whoever else holds the list sees the new backend at its
    end; no other list changes, no [TextBackend] is made, and [_backends] still
    refers to the same list. *)
Theorem add_backend_in_place self h l b bs (backend : option Backend) :
  _backends self = Some l →
  objects h !! l = Some (b :: bs) →
  ∃ h',
    add_backend self backend h = Returned (tt, self) h'
    ∧ objects h' !! l = Some (b :: bs ++ [backend])
    ∧ (∀ l', l' ≠ l → objects h' !! l' = objects h !! l')
    ∧ outside h' = outside h.
Proof.
  intros Hl Hbs. eexists. split_and!.
  - unfold add_backend. rewrite then_eq, backends_eq. unfold entries.
    rewrite Hl, Hbs. cbn [default from_option id]. rewrite then_eq. by cbn [push].
  - cbn [objects]. by rewrite list_lookup_alter_eq, Hbs.
  - intros l' Hl'. cbn [objects]. by rewrite list_lookup_alter_ne.
  - done.
Qed.

(** *** [query] *)

Lemma responses_raised bs (user_input : string) (conversation_id : option string) h e :
  responses bs user_input conversation_id h = Raised e →
  ∃ msg, e = Python (UpstreamError msg).
Proof.
  revert h. induction bs as [|[b|] bs IH]; intros h; cbn [responses];
    [intros Hret; discriminate Hret| |by apply IH].
  rewrite then_eq. unfold ask.
  destruct (AbstractBackend.query b user_input conversation_id (outside h))
    as [msg|[answer w]]; [intros [= <-]; by eauto|].
  rewrite then_eq.
  destruct (responses bs _ _ _) as [rest h'|e'] eqn:Hrest; [done|].
  intros [= <-]. by eapply IH.
Qed.

Lemma or_empty_elem_of (answer : option (list Value)) (v : Value) :
  v ∈ or_empty answer → ∃ vs, answer = Some vs ∧ v ∈ vs.
Proof. destruct answer as [[|x xs]|]; cbn; [by intros ?%elem_of_nil|by eauto|by intros ?%elem_of_nil]. Qed.

Lemma responses_returned bs (user_input : string) (conversation_id : option string)
    h rs h' (v : Value) :
  responses bs user_input conversation_id h = Returned rs h' →
  v ∈ rs →
  ∃ b w vs w',
    Some b ∈ bs
    ∧ AbstractBackend.query b user_input conversation_id w = inr (Some vs, w')
    ∧ v ∈ vs.
Proof.
  revert h rs. induction bs as [|[b|] bs IH]; intros h rs; cbn [responses].
  - intros [= <- _]. by intros ?%elem_of_nil.
  - rewrite then_eq. unfold ask.
    destruct (AbstractBackend.query b user_input conversation_id (outside h))
      as [msg|[answer w]] eqn:Hquery; [done|].
    rewrite then_eq.
    destruct (responses bs _ _ _) as [rest h1|e'] eqn:Hrest; [|done].
    intros [= <- ->] [Hv|Hv]%elem_of_app.
    + apply or_empty_elem_of in Hv as (vs & -> & Hv).
      exists b, (outside h), vs, w. split_and!; [by left|done..].
    + destruct (IH _ _ Hrest Hv) as (b' & w' & vs & w'' & Hin & Hq & Hvs).
      exists b', w', vs, w''. split_and!; [by right|done..].
  - intros Hrest Hv. destruct (IH _ _ Hrest Hv) as (b' & w' & vs & w'' & Hin & Hq & Hvs).
    exists b', w', vs, w''. split_and!; [by right|done..].
Qed.

Lemma responses_objects bs (user_input : string) (conversation_id : option string)
    h rs h' :
  responses bs user_input conversation_id h = Returned rs h' →
  objects h' = objects h.
Proof.
  revert h rs. induction bs as [|[b|] bs IH]; intros h rs; cbn [responses].
  - by intros [= _ <-].
  - rewrite then_eq. unfold ask.
    destruct (AbstractBackend.query b user_input conversation_id (outside h))
      as [msg|[answer w]]; [done|].
    rewrite then_eq. destruct (responses bs _ _ _) as [rest h1|e'] eqn:Hrest; [|done].
    intros [= _ <-]. by rewrite (IH _ _ Hrest).
  - apply IH.
Qed.

(** X16.  [query] raises nothing of its own: an exception of [query] is one
    that [TextBackend()] or a backend's [query] raised.  A [None] among the
    backends cannot make it fail. *)
Theorem query_raises_only_upstream
    self (user_input : string) (conversation_id : option string) h e :
  query self user_input conversation_id h = Raised e →
  ∃ msg, e = Python (UpstreamError msg).
Proof.
  unfold query. rewrite then_eq, backends_eq.
  destruct (entries self h) as [|b bs].
  - destruct (AbstractBackend.TextBackend (outside h)) as [msg|[b w]];
      [intros [= <-]; by eauto|].
    rewrite then_eq. cbn [read]. rewrite then_eq.
    destruct (responses _ _ _ _) as [rs h'|e'] eqn:Hrs; [done|].
    intros [= <-]. by eapply responses_raised.
  - rewrite then_eq. cbn [read]. rewrite then_eq.
    destruct (responses _ _ _ _) as [rs h'|e'] eqn:Hrs; [done|].
    intros [= <-]. by eapply responses_raised.
Qed.

(** X17.  Every response that [query] returns is an element of a list that one
    of the adapter's backends answered to this very [query]; a backend that
    answers [None] or an empty list, and a [None] entry, contribute nothing. *)
Theorem query_responses_from_backends
    self (user_input : string) (conversation_id : option string) h rs self' h' (v : Value) :
  query self user_input conversation_id h = Returned (rs, self') h' →
  v ∈ rs →
  ∃ b w vs w',
    Some b ∈ entries self' h'
    ∧ AbstractBackend.query b user_input conversation_id w = inr (Some vs, w')
    ∧ v ∈ vs.
Proof.
  unfold query. intros Hquery Hv.
  apply then_returned in Hquery as ([l self1] & h1 & Hget & Hquery).
  apply then_returned in Hquery as (bs & h2 & [= <- <-] & Hquery).
  apply then_returned in Hquery as (rs' & h3 & Hrs & [= <- <- <-]).
  destruct (responses_returned _ _ _ _ _ _ v Hrs Hv) as (b & w & vs & w' & Hin & Hq & Hvs).
  exists b, w, vs, w'. split_and!; [|done..].
  destruct (backends_returned _ _ _ _ _ Hget) as (Hl & _).
  unfold entries. rewrite Hl.
  by rewrite (responses_objects _ _ _ _ _ _ Hrs).
Qed.

Lemma responses_of_nones bs (user_input : string) (conversation_id : option string) h :
  Forall (λ b, b = None) bs →
  responses bs user_input conversation_id h = Returned [] h.
Proof.
  induction 1 as [|b bs -> _ IH]; [done|]. exact IH.
Qed.

(** X18.  On a list that holds nothing but [None] entries, [query] calls no
    backend, makes no [TextBackend], changes nothing and returns the empty
    list. *)
Theorem query_of_nones self (user_input : string) (conversation_id : option string) h bs :
  entries self h = None :: bs →
  Forall (λ b, b = None) bs →
  query self user_input conversation_id h = Returned ([], self) h.
Proof.
  intros Hentries Hnones. unfold query. rewrite then_eq, backends_eq, Hentries.
  rewrite then_eq. cbn [read].
  assert (default [] (objects h !! default 0 (_backends self)) = None :: bs) as ->.
  { unfold entries in Hentries. by destruct (_backends self). }
  rewrite then_eq, responses_of_nones; [done|]. by constructor.
Qed.

(** *** The accessors *)

Lemma collect_returned {R} (m : Backend → call World R) bs h (results : list R) h' :
  collect (λ backend, method backend m) bs h = Returned results h' →
  Forall is_Some bs ∧ length results = length bs ∧ objects h' = objects h.
Proof.
  revert h results. induction bs as [|[b|] bs IH]; intros h results; cbn [collect].
  - by intros [= <- <-].
  - rewrite then_eq. cbn [method]. unfold ask.
    destruct (m b (outside h)) as [msg|[x w]]; [done|].
    rewrite then_eq.
    destruct (collect _ bs _) as [rest h1|e] eqn:Hrest; [|done].
    intros [= <- <-]. destruct (IH _ _ Hrest) as (Hbs & Hlength & Hobjects).
    split_and!; [by constructor|by cbn; rewrite Hlength|done].
  - by rewrite then_eq.
Qed.

Lemma enumerate_backends_returned {R} self (m : Backend → call World R) h v self' h' :
  enumerate_backends self (λ backend, method backend m) h = Returned (v, self') h' →
  v = None ∧ Forall is_Some (entries self' h').
Proof.
  unfold enumerate_backends.
  intros ([l self1] & h1 & Hget & Hrest)%then_returned.
  apply then_returned in Hrest as (bs & h2 & [= <- <-] & Hrest).
  apply then_returned in Hrest as (results & h3 & Hcollect & [= <- <- <-]).
  split; [done|].
  destruct (backends_returned _ _ _ _ _ Hget) as (Hl & _).
  destruct (collect_returned _ _ _ _ _ Hcollect) as (Hbs & _ & Hobjects).
  unfold entries. by rewrite Hl, Hobjects.
Qed.

(** X19.  [facts], [inferencers], [heuristics], [select_facts],
    [select_inferencers] and [select_heuristics] never give the backends'
    answers back: whenever one of them returns, its value is [None]
    ([enumerate_backends] collects the answers and drops them), and it returns
    only when no entry of the backend list is [None]. *)
Theorem accessors_return_None self h (criteria : Value) v self' h' :
  facts self h = Returned (v, self') h'
  ∨ inferencers self h = Returned (v, self') h'
  ∨ heuristics self h = Returned (v, self') h'
  ∨ select_facts self criteria h = Returned (v, self') h'
  ∨ select_inferencers self criteria h = Returned (v, self') h'
  ∨ select_heuristics self criteria h = Returned (v, self') h' →
  v = None ∧ Forall is_Some (entries self' h').
Proof.
  intros [Hreturned|[Hreturned|[Hreturned|[Hreturned|[Hreturned|Hreturned]]]]];
    exact (enumerate_backends_returned _ _ _ _ _ _ Hreturned).
Qed.

(** X20.  A [None] at the head of the backend list makes [add_fact],
    [add_inferencer], [add_heuristic] and the accessor [facts] raise
    [AttributeError], although [query] skips such an entry. *)
Theorem head_None_raises self h bs (fact heuristic : string) (inferencer : Value) :
  entries self h = None :: bs →
  add_fact self fact h = Raised (Python AttributeError)
  ∧ add_inferencer self inferencer h = Raised (Python AttributeError)
  ∧ add_heuristic self heuristic h = Raised (Python AttributeError)
  ∧ facts self h = Raised (Python AttributeError).
Proof.
  intros Hentries.
  assert (default [] (objects h !! default 0 (_backends self)) = None :: bs) as Hread.
  { unfold entries in Hentries. by destruct (_backends self). }
  assert (_get_first_backend self h = Returned (None, self) h) as Hfirst.
  { unfold _get_first_backend. rewrite then_eq, backends_eq, Hentries.
    rewrite then_eq. cbn [read]. by rewrite Hread. }
  split_and!.
  - unfold add_fact. by rewrite then_eq, Hfirst.
  - unfold add_inferencer. by rewrite then_eq, Hfirst.
  - unfold add_heuristic. by rewrite then_eq, Hfirst.
  - unfold facts, enumerate_backends. rewrite then_eq, backends_eq, Hentries.
    rewrite then_eq. cbn [read]. by rewrite Hread.
Qed.

Lemma first_backend_of_entries self h b bs :
  entries self h = b :: bs → _get_first_backend self h = Returned (b, self) h.
Proof.
  intros Hentries. unfold _get_first_backend. rewrite then_eq, backends_eq, Hentries.
  rewrite then_eq. cbn [read].
  assert (default [] (objects h !! default 0 (_backends self)) = b :: bs) as ->; [|done].
  unfold entries in Hentries. by destruct (_backends self).
Qed.

Lemma first_backend_default self h (text : Backend) w :
  entries self h = [] →
  AbstractBackend.TextBackend (outside h) = inr (text, w) →
  _get_first_backend self h
  = Returned (Some text, mk (Some (length (objects h))))
             (Heap w (objects h ++ [[Some text]])).
Proof.
  intros Hentries Htext. unfold _get_first_backend.
  rewrite then_eq, backends_eq, Hentries, Htext. rewrite then_eq. cbn [read objects].
  by rewrite lookup_app_r, Nat.sub_diag.
Qed.

(** X21.  On an adapter without backends, the first [add_fact] makes the
    default [TextBackend] and adds the fact to it, and a second [add_fact]
    adds to that same backend: one [TextBackend] is made, not two. *)
Theorem add_fact_twice self h (text : Backend) (fact1 fact2 : string) w1 w2 w3 :
  entries self h = [] →
  AbstractBackend.TextBackend (outside h) = inr (text, w1) →
  AbstractBackend.add_fact text fact1 w1 = inr (tt, w2) →
  AbstractBackend.add_fact text fact2 w2 = inr (tt, w3) →
  add_fact self fact1 h
  = Returned (tt, mk (Some (length (objects h)))) (Heap w2 (objects h ++ [[Some text]]))
  ∧ add_fact (mk (Some (length (objects h)))) fact2
             (Heap w2 (objects h ++ [[Some text]]))
    = Returned (tt, mk (Some (length (objects h)))) (Heap w3 (objects h ++ [[Some text]])).
Proof.
  intros Hentries Htext Hfact1 Hfact2. split.
  - unfold add_fact. rewrite then_eq, (first_backend_default _ _ _ _ Hentries Htext).
    rewrite then_eq. cbn [method]. unfold ask. cbn [outside]. by rewrite Hfact1.
  - unfold add_fact. rewrite then_eq, (first_backend_of_entries _ _ (Some text) []).
    + rewrite then_eq. cbn [method]. unfold ask. cbn [outside]. by rewrite Hfact2.
    + apply entries_fresh.
Qed.

End AdapterProperties.

(** ** The further properties, run *)

Lemma resource_overviews_entries_witness :
  elements (Agent.resources Library.librarian)
    ≡ₚ elements (Agent.resources Library.librarian)
  ∧ (∀ name, is_Some (Agent.resource_overviews elements Library.librarian !! name)
             ↔ ∃ r, r ∈ Agent.resources Library.librarian ∧ unique_name r = name)
  ∧ (∀ name text,
       Agent.resource_overviews elements Library.librarian !! name = Some text →
       {| unique_name := name; overview := text |} ∈ Agent.resources Library.librarian).
Proof.
  split; [reflexivity|].
  apply (resource_overviews_entries elements Library.librarian). reflexivity.
Defined.

Lemma resource_overviews_unique_names_witness :
  Agent.resource_overviews elements Library.librarian !! "manual"
    = Some "The operating manual"
  ∧ Agent.resource_overviews elements Library.librarian !! "log" = Some "Voyages of 2024"
  ∧ size (Agent.resource_overviews elements Library.librarian) = 2.
Proof.
  destruct (resource_overviews_unique_names elements Library.librarian)
    as (Hfound & Hsize & _).
  - reflexivity.
  - intros r1 r2. unfold Library.librarian. cbn [Agent.resources].
    intros [Hr1 | Hr1]%elem_of_union [Hr2 | Hr2]%elem_of_union;
      apply elem_of_singleton in Hr1 as ->; apply elem_of_singleton in Hr2 as ->;
      intros Hname; (reflexivity || discriminate Hname).
  - split_and!.
    + apply (Hfound Library.manual). apply elem_of_union. left. by apply elem_of_singleton.
    + apply (Hfound Library.log_2024). apply elem_of_union. right. by apply elem_of_singleton.
    + rewrite Hsize. vm_compute. reflexivity.
Defined.

Lemma resource_overviews_last_wins_witness :
  elements (Agent.resources Library.archive) = [Library.log_2023; Library.log_2024]
  ∧ Agent.resource_overviews elements Library.archive !! "log" = Some "Voyages of 2024".
Proof.
  split; [vm_compute; reflexivity|].
  apply (resource_overviews_last_wins elements Library.archive [Library.log_2023] []
           Library.log_2024).
  - vm_compute. reflexivity.
  - intros r' Hr'. by apply elem_of_nil in Hr'.
Defined.

Lemma solve_raises_only_witness :
  Agent.solve 3 (Demo.agent (Some Demo.falsy_planner) Demo.always_resolve)
    "X" None true Demo.start = Raises ValueError
  ∧ (ValueError = NotImplementedError ∨ ValueError = ValueError
     ∨ ∃ msg, ValueError = UpstreamError msg).
Proof.
  split; [reflexivity|].
  exact (solve_raises_only 3 (Demo.agent (Some Demo.falsy_planner) Demo.always_resolve)
           "X" None true Demo.start ValueError eq_refl).
Defined.

Lemma solve_dynamically_each_descent_witness :
  ∃ r s',
    Agent.solve_dynamically_run 2
      (Demo.agent (Some (Demo.planner_of 1)) (Demo.decompose_only "X"))
      "X" None None Demo.start = Returns r s'
    ∧ length (Agent.descents r) = 3
    ∧ (∀ i d,
         Agent.descents r !! i = Some d →
         Agent.visible d = map pair_of (take i (Agent.descents r))
         ∧ (Task.ask ∘ Plan.task) <$> [Demo.leaf "Xa"; Demo.leaf "Xb"; Demo.leaf "Xc"] !! i
           = Some (Agent.sub_problem d)
         ∧ Agent.other_results_arg d = Some 0).
Proof.
  destruct (Agent.solve_dynamically_run 2
              (Demo.agent (Some (Demo.planner_of 1)) (Demo.decompose_only "X"))
              "X" None None Demo.start) as [r s'| |] eqn:Hrun;
    [|vm_compute in Hrun; discriminate Hrun..].
  assert (Agent.decomposition r
          = Some (Plan.mk (Task.new "X" ∅)
                          [Demo.leaf "Xa"; Demo.leaf "Xb"; Demo.leaf "Xc"])) as Hplan.
  { vm_compute in Hrun. injection Hrun as <- _. reflexivity. }
  exists r, s'. split; [reflexivity|].
  exact (solve_dynamically_each_descent 2
           (Demo.agent (Some (Demo.planner_of 1)) (Demo.decompose_only "X"))
           "X" None None Demo.start r s' _ Hrun Hplan).
Defined.

Lemma solve_dynamically_empty_decomposition_witness :
  ∃ r s',
    Agent.solve_dynamically_run 2
      (Demo.agent (Some Library.stuck_planner) Demo.always_decompose)
      "X" None None Demo.start = Returns r s'
    ∧ APlan.execute (Plan.mk (Task.new "X" ∅) []) Demo.always_decompose None ∅ 2
      = inr ("all of:", world s')
    ∧ Agent.descents r = []
    ∧ Agent.executed r = Some (Plan.mk (Task.new "X" ∅) [], None)
    ∧ Agent.final_task r = Task.mk "X" ∅ DONE (Some "all of:")
    ∧ Agent.returned r = Some "all of:"
    ∧ lists s' = [[]].
Proof.
  destruct (Agent.solve_dynamically_run 2
              (Demo.agent (Some Library.stuck_planner) Demo.always_decompose)
              "X" None None Demo.start) as [r s'| |] eqn:Hrun;
    [|vm_compute in Hrun; discriminate Hrun..].
  assert (Agent.decomposition r = Some (Plan.mk (Task.new "X" ∅) [])) as Hplan.
  { vm_compute in Hrun. injection Hrun as <- _. reflexivity. }
  destruct (solve_dynamically_empty_decomposition 2
              (Demo.agent (Some Library.stuck_planner) Demo.always_decompose)
              "X" None None Demo.start r s' _ Hrun Hplan eq_refl)
    as (fuel' & p & text & result & w1 & w2 & answer & _ & Hreason & _ & Hplanned
        & Hexec & Hdescents & Hexecuted & Htask & Hreturned & Hlists).
  assert (w1 = 1) as -> by (cbn in Hreason; congruence).
  assert (w2 = 2) as -> by (cbn in Hplanned; congruence).
  assert (answer = "all of:") as -> by (vm_compute in Hexec; congruence).
  exists r, s'. split_and!; [reflexivity|exact Hexec|exact Hdescents|exact Hexecuted
                            |exact Htask|exact Hreturned|exact Hlists].
Defined.

Lemma for_sub_plans_aborts_witness :
  Agent.for_sub_plans Library.fragile (Demo.planner_of 0) 0
    [Demo.leaf "ok"; Demo.leaf "bad"; Demo.leaf "never"] (State 0 [[]])
  = Raises (UpstreamError "model down").
Proof.
  eapply (for_sub_plans_aborts Library.fragile (Demo.planner_of 0) 0
            [Demo.leaf "ok"] (Demo.leaf "bad") [Demo.leaf "never"] (State 0 [[]])).
  - vm_compute. reflexivity.
  - vm_compute. reflexivity.
Defined.

Lemma solve_dynamically_keeps_lists_witness :
  ∃ r s',
    Agent.solve_dynamically_run 2
      (Demo.agent (Some (Demo.planner_of 1)) (Demo.decompose_only "X"))
      "X" None (Some 0) (State 0 [[("earlier", Some "answer")]]) = Returns r s'
    ∧ length (lists s') = 2
    ∧ lists s' !! 0 = Some [("earlier", Some "answer")].
Proof.
  destruct (Agent.solve_dynamically_run 2
              (Demo.agent (Some (Demo.planner_of 1)) (Demo.decompose_only "X"))
              "X" None (Some 0) (State 0 [[("earlier", Some "answer")]]))
    as [r s'| |] eqn:Hrun; [|vm_compute in Hrun; discriminate Hrun..].
  assert (length (lists s') = 2) as Hlength.
  { vm_compute in Hrun. injection Hrun as _ <-. reflexivity. }
  exists r, s'. split; [reflexivity|]. split; [exact Hlength|].
  exact (solve_dynamically_keeps_lists 2
           (Demo.agent (Some (Demo.planner_of 1)) (Demo.decompose_only "X"))
           "X" None (Some 0) (State 0 [[("earlier", Some "answer")]]) r s' 0
           [("earlier", Some "answer")] Hrun eq_refl).
Defined.

Lemma solve_dynamically_last_level_witness :
  ∃ r s',
    Agent.solve_dynamically_run 3
      (Demo.agent (Some (Demo.planner_of 1)) Demo.always_decompose)
      "X" None None Demo.start = Returns r s'
    ∧ map Agent.sub_problem (Agent.descents r) = ["Xa"; "Xb"; "Xc"]
    ∧ Forall (λ d,
                ∃ s1 text status result w,
                  AReasoner.reason Demo.always_decompose
                    (Task.new (Agent.sub_problem d) ∅) ∅ (world s1)
                  = inr ((text, (status, result)), w)
                  ∧ Agent.sub_result d = result)
             (Agent.descents r).
Proof.
  destruct (Agent.solve_dynamically_run 3
              (Demo.agent (Some (Demo.planner_of 1)) Demo.always_decompose)
              "X" None None Demo.start) as [r s'| |] eqn:Hrun;
    [|vm_compute in Hrun; discriminate Hrun..].
  assert (map Agent.sub_problem (Agent.descents r) = ["Xa"; "Xb"; "Xc"]) as Hasks.
  { vm_compute in Hrun. injection Hrun as <- _. reflexivity. }
  exists r, s'. split; [reflexivity|]. split; [exact Hasks|].
  apply (solve_dynamically_last_level 3
           (Demo.agent (Some (Demo.planner_of 1)) Demo.always_decompose)
           "X" None None Demo.start r s' (Demo.planner_of 1)).
  - intros q. reflexivity.
  - reflexivity.
  - reflexivity.
  - exact Hrun.
Defined.

Lemma solve_ends_witness :
  Agent.solve 3 (Demo.agent (Some (Demo.planner_of 2)) Demo.always_decompose)
    "X" None true Demo.start ≠ OutOfFuel.
Proof.
  apply (solve_ends 3 (Demo.agent (Some (Demo.planner_of 2)) Demo.always_decompose)
           "X" None true Demo.start).
  - intros q. reflexivity.
  - intros p [= <-]. cbn. lia.
Defined.

Lemma backends_never_empty_witness :
  BaseAdapter.backends (BaseAdapter.__init__ None) Shelf.empty
  = BaseAdapter.Returned (0, BaseAdapter.mk (Some 0))
      (BaseAdapter.Heap ["TextBackend()"] [[Some "text"]])
  ∧ BaseAdapter.backends (BaseAdapter.mk (Some 0))
      (BaseAdapter.Heap ["TextBackend()"] [[Some "text"]])
    = BaseAdapter.Returned (0, BaseAdapter.mk (Some 0))
        (BaseAdapter.Heap ["TextBackend()"] [[Some "text"]]).
Proof.
  assert (BaseAdapter.backends (BaseAdapter.__init__ None) Shelf.empty
          = BaseAdapter.Returned (0, BaseAdapter.mk (Some 0))
              (BaseAdapter.Heap ["TextBackend()"] [[Some "text"]])) as Hfirst
    by reflexivity.
  split; [exact Hfirst|].
  destruct (backends_never_empty _ _ _ _ _ Hfirst) as (_ & _ & Hagain & _).
  exact Hagain.
Defined.

Lemma add_backend_after_default_witness :
  BaseAdapter.add_backend (BaseAdapter.__init__ (Some 0)) (Some "mine")
    (Shelf.with_list [])
  = BaseAdapter.Returned (tt, BaseAdapter.mk (Some 1))
      (BaseAdapter.Heap ["TextBackend()"] [[]; [Some "text"; Some "mine"]])
  ∧ BaseAdapter._get_first_backend (BaseAdapter.mk (Some 1))
      (BaseAdapter.Heap ["TextBackend()"] [[]; [Some "text"; Some "mine"]])
    = BaseAdapter.Returned (Some "text", BaseAdapter.mk (Some 1))
        (BaseAdapter.Heap ["TextBackend()"] [[]; [Some "text"; Some "mine"]]).
Proof.
  exact (add_backend_after_default (BaseAdapter.__init__ (Some 0)) (Shelf.with_list [])
           (Some "mine") "text" ["TextBackend()"] eq_refl eq_refl).
Defined.

Lemma add_backend_in_place_witness :
  ∃ h',
    BaseAdapter.add_backend (BaseAdapter.__init__ (Some 0)) (Some "b")
      (Shelf.with_list [Some "a"])
    = BaseAdapter.Returned (tt, BaseAdapter.__init__ (Some 0)) h'
    ∧ BaseAdapter.objects h' !! 0 = Some [Some "a"; Some "b"]
    ∧ (∀ l', l' ≠ 0 →
             BaseAdapter.objects h' !! l'
             = BaseAdapter.objects (Shelf.with_list [Some "a"]) !! l')
    ∧ BaseAdapter.outside h' = [].
Proof.
  exact (add_backend_in_place (BaseAdapter.__init__ (Some 0))
           (Shelf.with_list [Some "a"]) 0 (Some "a") [] (Some "b") eq_refl eq_refl).
Defined.

Lemma query_raises_only_upstream_witness :
  BaseAdapter.query (BaseAdapter.__init__ (Some 0)) "hi" None
    (Shelf.with_list [Some "a"; None; Some "broken"])
  = BaseAdapter.Raised (BaseAdapter.Python (UpstreamError "backend down"))
  ∧ ∃ msg, BaseAdapter.Python (UpstreamError "backend down")
           = BaseAdapter.Python (UpstreamError msg).
Proof.
  split; [reflexivity|].
  exact (query_raises_only_upstream (BaseAdapter.__init__ (Some 0)) "hi" None
           (Shelf.with_list [Some "a"; None; Some "broken"])
           (BaseAdapter.Python (UpstreamError "backend down")) eq_refl).
Defined.

Lemma query_responses_from_backends_witness :
  BaseAdapter.query (BaseAdapter.__init__ (Some 0)) "hi" None
    (Shelf.with_list [Some "a"; None; Some "mute"; Some "b"])
  = BaseAdapter.Returned (["a on hi"; "b on hi"], BaseAdapter.__init__ (Some 0))
      (BaseAdapter.Heap ["b.query"; "mute.query"; "a.query"]
         [[Some "a"; None; Some "mute"; Some "b"]])
  ∧ ∃ b w vs w',
      Some b ∈ [Some "a"; None; Some "mute"; Some "b"]
      ∧ AbstractBackend.query b "hi" None w = inr (Some vs, w')
      ∧ "b on hi" ∈ vs.
Proof.
  split; [reflexivity|].
  apply (query_responses_from_backends (BaseAdapter.__init__ (Some 0)) "hi" None
           (Shelf.with_list [Some "a"; None; Some "mute"; Some "b"])
           ["a on hi"; "b on hi"] (BaseAdapter.__init__ (Some 0))
           (BaseAdapter.Heap ["b.query"; "mute.query"; "a.query"]
              [[Some "a"; None; Some "mute"; Some "b"]])
           "b on hi").
  - reflexivity.
  - apply elem_of_cons. right. apply elem_of_cons. by left.
Defined.

Lemma query_of_nones_witness :
  BaseAdapter.query (Value := string) (BaseAdapter.__init__ (Some 0)) "hi" None
    (Shelf.with_list [None; None])
  = BaseAdapter.Returned ([], BaseAdapter.__init__ (Some 0)) (Shelf.with_list [None; None]).
Proof.
  apply (query_of_nones (BaseAdapter.__init__ (Some 0)) "hi" None
           (Shelf.with_list [None; None]) [None]).
  - reflexivity.
  - repeat constructor.
Defined.

Lemma head_None_raises_witness :
  BaseAdapter.add_fact (BaseAdapter.__init__ (Some 0)) "f" (Shelf.with_list [None; Some "b"])
  = BaseAdapter.Raised (BaseAdapter.Python AttributeError)
  ∧ BaseAdapter.add_inferencer (BaseAdapter.__init__ (Some 0)) "i"
      (Shelf.with_list [None; Some "b"])
    = BaseAdapter.Raised (BaseAdapter.Python AttributeError)
  ∧ BaseAdapter.add_heuristic (BaseAdapter.__init__ (Some 0)) "h"
      (Shelf.with_list [None; Some "b"])
    = BaseAdapter.Raised (BaseAdapter.Python AttributeError)
  ∧ BaseAdapter.facts (BaseAdapter.__init__ (Some 0)) (Shelf.with_list [None; Some "b"])
    = BaseAdapter.Raised (BaseAdapter.Python AttributeError).
Proof.
  exact (head_None_raises (BaseAdapter.__init__ (Some 0)) (Shelf.with_list [None; Some "b"])
           [Some "b"] "f" "h" "i" eq_refl).
Defined.

Lemma add_fact_twice_witness :
  BaseAdapter.add_fact (BaseAdapter.__init__ None) "f" Shelf.empty
  = BaseAdapter.Returned (tt, BaseAdapter.mk (Some 0))
      (BaseAdapter.Heap ["text.add_fact f"; "TextBackend()"] [[Some "text"]])
  ∧ BaseAdapter.add_fact (BaseAdapter.mk (Some 0)) "g"
      (BaseAdapter.Heap ["text.add_fact f"; "TextBackend()"] [[Some "text"]])
    = BaseAdapter.Returned (tt, BaseAdapter.mk (Some 0))
        (BaseAdapter.Heap ["text.add_fact g"; "text.add_fact f"; "TextBackend()"]
           [[Some "text"]]).
Proof.
  exact (add_fact_twice (BaseAdapter.__init__ None) Shelf.empty "text" "f" "g"
           ["TextBackend()"] ["text.add_fact f"; "TextBackend()"]
           ["text.add_fact g"; "text.add_fact f"; "TextBackend()"]
           eq_refl eq_refl eq_refl eq_refl).
Defined.

Lemma accessors_return_None_witness :
  BaseAdapter.facts (BaseAdapter.__init__ (Some 0)) (Shelf.with_list [Some "a"; Some "b"])
  = BaseAdapter.Returned (None, BaseAdapter.__init__ (Some 0))
      (BaseAdapter.Heap ["b.list_facts"; "a.list_facts"] [[Some "a"; Some "b"]])
  ∧ (None : option (list string)) = None
  ∧ Forall is_Some [Some "a"; Some "b"].
Proof.
  split; [reflexivity|].
  apply (accessors_return_None (BaseAdapter.__init__ (Some 0))
           (Shelf.with_list [Some "a"; Some "b"]) "any" None
           (BaseAdapter.__init__ (Some 0))
           (BaseAdapter.Heap ["b.list_facts"; "a.list_facts"] [[Some "a"; Some "b"]])).
  left. reflexivity.
Defined.
